(** * Book Marketplace API: a shallow embedding of [main.py] and [schemas.py]

    The handlers of [main.py] are embedded as functions in a small
    state-and-exception monad over the document store; the pydantic models of
    [schemas.py] and [main.py] become records with their validators; Python
    dictionaries are finite maps keyed by strings. *)

From Stdlib Require Import Floats.PrimFloat.
From Stdlib Require Import NArith Strings.Ascii Strings.String Strings.Byte.
From stdpp Require Import gmap strings list fin_maps.

Local Open Scope string_scope.

(** ** Library functions the program calls but does not define

    [validate_email] is the check behind pydantic's [EmailStr]: it returns the
    normalised address, or [None] when the text is not an address.
    [float_of_str] is pydantic's lax conversion of a numeric string to a
    float, and [float_repr] is Python's [str] on a float.  [regex_compile
    options pattern] is the store's [$regex] operator: the search that the
    pattern stands for under the options, or [None] when the text is not a
    well-formed pattern. *)
Class Externals := {
  validate_email : string → option string;
  float_of_str : string → option float;
  float_repr : float → string;
  regex_compile : string → string → option (string → bool);
}.

(** ** [bson.objectid.ObjectId] *)

Record ObjectId := mkObjectId { binary : list byte }.

Module Hex.

Definition digit (n : N) : ascii :=
  ascii_of_N (if (n <? 10)%N then 48 + n else 87 + n).

Definition value (c : ascii) : option N :=
  let n := N_of_ascii c in
  if (48 <=? n)%N && (n <=? 57)%N then Some (n - 48)%N
  else if (97 <=? n)%N && (n <=? 102)%N then Some (n - 87)%N
  else if (65 <=? n)%N && (n <=? 70)%N then Some (n - 55)%N
  else None.

(** ASCII whitespace, which [bytes.fromhex] skips between two bytes. *)
Definition is_space (c : ascii) : bool :=
  let n := N_of_ascii c in
  (n =? 32)%N || ((9 <=? n)%N && (n <=? 13)%N).

Definition of_byte (b : byte) (rest : string) : string :=
  let n := Byte.to_N b in
  String (digit (n / 16)) (String (digit (n mod 16)) rest).

(** [bytes.hex] *)
Definition hex (l : list byte) : string := foldr of_byte "" l.

(** [bytes.fromhex]; [None] stands for [ValueError]. *)
Fixpoint fromhex (s : string) : option (list byte) :=
  match s with
  | "" => Some []
  | String c r =>
      if is_space c then fromhex r
      else match r with
           | "" => None
           | String c' r' =>
               hi ← value c; lo ← value c';
               b ← Byte.of_N (16 * hi + lo);
               (b ::.) <$> fromhex r'
           end
  end.

End Hex.

(** [ObjectId(oid)] for a [str] argument: [None] stands for [InvalidId]. *)
Definition ObjectId_new (oid : string) : option ObjectId :=
  if (String.length oid =? 24)%nat then mkObjectId <$> Hex.fromhex oid else None.

(** [str(oid)] *)
Definition ObjectId_str (o : ObjectId) : string := Hex.hex (binary o).

(** The identifiers the driver generates are twelve bytes long. *)
Definition ObjectId_wf (o : ObjectId) : Prop := length (binary o) = 12.

(** ** Documents *)

Inductive value :=
| VNone
| VStr (s : string)
| VFloat (f : float)
| VOid (o : ObjectId).

Abbreviation document := (gmap string value).

(** A Python reference: [None], or the address of a dictionary object. *)
Inductive pyref := PNone | PDict (l : nat).

Abbreviation heap := (gmap nat document).

Section Mapper.
Context `{Externals}.

(** Python's [str] on a stored value *)
Definition py_str (v : value) : string :=
  match v with
  | VNone => "None"
  | VStr s => s
  | VFloat f => float_repr f
  | VOid o => ObjectId_str o
  end.

(** Truth value of [doc], which is [None] or a dictionary. *)
Definition truthy (d : option document) : bool :=
  match d with
  | None => false
  | Some m => negb (size m =? 0)%nat
  end.

Definition to_public (doc : option document) : option document :=
  if negb (truthy doc) then doc
  else
    d ← doc;
    match d !! "_id" with
    | Some v => Some (<["id" := VStr (py_str v)]> (delete "_id" d))
    | None => Some d
    end.

(** *** The same function on a heap of dictionary objects

    [to_public] receives a reference; [doc.copy()] allocates, and [pop] and
    the item assignment update the object they are called on. *)

Definition deref (h : heap) (r : pyref) : option document :=
  match r with PNone => None | PDict l => h !! l end.

Definition dict_copy (h : heap) (l : nat) : heap * nat :=
  let l' := fresh (dom h) in (<[l' := default ∅ (h !! l)]> h, l').

Definition dict_contains (h : heap) (l : nat) (k : string) : bool :=
  bool_decide (is_Some (h !! l ≫= (.!! k))).

Definition dict_pop (h : heap) (l : nat) (k : string) : heap * value :=
  (alter (delete k) l h, default VNone (h !! l ≫= (.!! k))).

Definition dict_setitem (h : heap) (l : nat) (k : string) (v : value) : heap :=
  alter (<[k := v]>) l h.

Definition to_public_h (h : heap) (doc : pyref) : heap * pyref :=
  if negb (truthy (deref h doc)) then (h, doc)
  else
    match doc with
    | PNone => (h, doc)
    | PDict l =>
        let '(h1, d) := dict_copy h l in
        if dict_contains h1 d "_id" then
          let '(h2, v) := dict_pop h1 d "_id" in
          (dict_setitem h2 d "id" (VStr (py_str v)), PDict d)
        else (h1, PDict d)
    end.

End Mapper.

(** ** Errors

    [HTTPException] is what the handlers raise themselves.
    [RequestValidationError] is FastAPI's rejection of a body that does not fit
    the handler's payload model, before the handler runs; [ValidationError]
    is pydantic's, raised where a model is constructed inside a handler. *)
Inductive error :=
| HTTPException (status_code : Z) (detail : string)
| RequestValidationError (fields : list string)
| ValidationError (fields : list string)
| TypeError
| KeyError (key : string)
| DuplicateKeyError
| InvalidId
| StoreUnavailable
| NotImplementedError
| OperationFailure.

Definition DuplicateEmail : error := HTTPException 400 "Email already registered".
Definition InvalidCredentials : error := HTTPException 401 "Invalid credentials".
Definition SellerNotFound : error := HTTPException 400 "Seller not found".
Definition MalformedId : error := HTTPException 400 "Invalid ID".
Definition NotFound : error := HTTPException 404 "Not found".

Inductive result (A : Type) :=
| Ok (a : A)
| Raise (e : error).
Arguments Ok {A} a.
Arguments Raise {A} e.

(** ** The document store

    A store maps a collection name to its documents in insertion order.  The
    handle [db] of [main.py] is [None] when no database is configured and a
    truthy handle otherwise.  [trace] records the operations issued against
    the store, latest last. *)

Abbreviation store := (gmap string (list document)).

Inductive access :=
| FindOne (collection : string)
| Find (collection : string)
| InsertOne (collection : string).

Record world := World { db : option store; trace : list access }.

Definition log (a : access) (w : world) : world :=
  {| db := db w; trace := (trace w ++ [a])%list |}.

Definition M (A : Type) : Type := world → result A * world.

Definition ret {A} (a : A) : M A := λ w, (Ok a, w).

Definition raise {A} (e : error) : M A := λ w, (Raise e, w).

Definition bind {A B} (m : M A) (k : A → M B) : M B :=
  λ w, match m w with
       | (Ok a, w') => k a w'
       | (Raise e, w') => (Raise e, w')
       end.

Definition try_except {A} (m : M A) (handler : error → M A) : M A :=
  λ w, match m w with
       | (Ok a, w') => (Ok a, w')
       | (Raise e, w') => handler e w'
       end.

#[global] Instance M_ret : MRet M := @ret.
#[global] Instance M_bind : MBind M := λ A B k m, bind m k.

(** *** Filters *)

Inductive query :=
| QEq (v : value)
| QRegex (pattern options : string).

Abbreviation filter_dict := (gmap string query).

Definition ObjectId_eqb (a b : ObjectId) : bool :=
  bool_decide (Byte.to_N <$> binary a = Byte.to_N <$> binary b).

Definition value_eqb (a b : value) : bool :=
  match a, b with
  | VNone, VNone => true
  | VStr s, VStr t => String.eqb s t
  | VFloat f, VFloat g => PrimFloat.eqb f g
  | VOid o, VOid p => ObjectId_eqb o p
  | _, _ => false
  end.

Section Store.
Context `{Externals}.

(** A clause the store can evaluate: a [$regex] clause must hold a
    well-formed pattern. *)
Definition query_ok (q : query) : bool :=
  match q with
  | QEq _ => true
  | QRegex pattern options => bool_decide (is_Some (regex_compile options pattern))
  end.

Definition filter_ok (f : filter_dict) : bool :=
  bool_decide (map_Forall (λ _ q, query_ok q = true) f).

Definition query_holds (q : query) (field : option value) : bool :=
  match q, field with
  | QEq v, Some w => value_eqb w v
  | QEq VNone, None => true
  | QEq _, None => false
  | QRegex pattern options, Some (VStr s) =>
      match regex_compile options pattern with
      | Some search => search s
      | None => false
      end
  | QRegex _ _, _ => false
  end.

Definition doc_matches (f : filter_dict) (d : document) : bool :=
  bool_decide (map_Forall (λ k q, query_holds q (d !! k) = true) f).

Definition documents (st : store) (collection : string) : list document :=
  default [] (st !! collection).

(** The truth value of [db] in [... if db else None].  [None] is false.  A
    handle that is present is pymongo's [Database], which refuses to be
    tested for truth: [bool(db)] raises [NotImplementedError] and asks for
    [db is not None] in its place. *)
Definition db_bool : M bool :=
  λ w, match db w with
       | Some _ => (Raise NotImplementedError, w)
       | None => (Ok false, w)
       end.

(** [db[name]]: subscripting [None] is a [TypeError]. *)
Definition db_getitem (name : string) : M string :=
  λ w, match db w with
       | Some _ => (Ok name, w)
       | None => (Raise TypeError, w)
       end.

(** [find_one] and [find]: the store refuses a filter it cannot evaluate
    with [OperationFailure]. *)
Definition find_one (collection : string) (f : filter_dict) : M (option document) :=
  λ w, match db w with
       | Some st =>
           if filter_ok f
           then (Ok (List.find (doc_matches f) (documents st collection)),
                 log (FindOne collection) w)
           else (Raise OperationFailure, log (FindOne collection) w)
       | None => (Raise StoreUnavailable, w)
       end.

Definition find (collection : string) (f : filter_dict) : M (list document) :=
  λ w, match db w with
       | Some st =>
           if filter_ok f
           then (Ok (List.filter (doc_matches f) (documents st collection)),
                 log (Find collection) w)
           else (Raise OperationFailure, log (Find collection) w)
       | None => (Raise StoreUnavailable, w)
       end.

Definition has_id (v : value) (d : document) : bool :=
  match d !! "_id" with
  | Some w => value_eqb w v
  | None => false
  end.

(** [insert_one]: a document without ["_id"] gets the identifier [oid] the
    driver generates for it; an identifier already in the collection is a
    [DuplicateKeyError].  The result is the [inserted_id]. *)
Definition insert_one (oid : ObjectId) (collection : string) (d : document) : M value :=
  λ w, match db w with
       | Some st =>
           let inserted_id := default (VOid oid) (d !! "_id") in
           let d' := <["_id" := inserted_id]> d in
           let docs := documents st collection in
           if existsb (has_id inserted_id) docs
           then (Raise DuplicateKeyError, log (InsertOne collection) w)
           else (Ok inserted_id,
                 {| db := Some (<[collection := (docs ++ [d'])%list]> st);
                    trace := (trace w ++ [InsertOne collection])%list |})
       | None => (Raise StoreUnavailable, w)
       end.

End Store.

(** ** Request bodies and field validation *)

#[local] Unset Elimination Schemes.
Inductive json :=
| JNull
| JBool (b : bool)
| JNum (x : float)
| JStr (s : string)
| JArr (items : list json)
| JObj (members : list (string * json)).
#[local] Set Elimination Schemes.

Abbreviation body := (gmap string json).

(** Validation of a model reports every field that fails, in field order. *)
Definition check {A} (name : string) (r : option A) : list string + A :=
  match r with
  | Some a => inr a
  | None => inl [name]
  end.

Definition ap {A B} (f : list string + (A → B)) (x : list string + A)
  : list string + B :=
  match f, x with
  | inr g, inr a => inr (g a)
  | inl e, inr _ => inl e
  | inr _, inl e => inl e
  | inl e, inl e' => inl (e ++ e')%list
  end.

Infix "<&>" := ap (at level 50, left associativity).

Module Field.

(** A field annotated [str], read from a JSON body *)
Definition str (j : option json) : option string :=
  match j with
  | Some (JStr s) => Some s
  | _ => None
  end.

(** [Optional[str] = None] *)
Definition optional_str (j : option json) : option (option string) :=
  match j with
  | None | Some JNull => Some None
  | Some (JStr s) => Some (Some s)
  | _ => None
  end.

(** [float], with pydantic's lax conversions *)
Definition float `{Externals} (j : option json) : option float :=
  match j with
  | Some (JNum x) => Some x
  | Some (JBool b) => Some (if b then 1%float else 0%float)
  | Some (JStr s) => float_of_str s
  | _ => None
  end.

(** [EmailStr] *)
Definition email `{Externals} (j : option json) : option string :=
  match j with
  | Some (JStr s) => validate_email s
  | _ => None
  end.

(** The same annotations for keyword arguments, which are Python values. *)
Definition py_str (v : option value) : option string :=
  match v with
  | Some (VStr s) => Some s
  | _ => None
  end.

Definition py_optional_str (v : option value) : option (option string) :=
  match v with
  | None | Some VNone => Some None
  | Some (VStr s) => Some (Some s)
  | _ => None
  end.

Definition py_float `{Externals} (v : option value) : option PrimFloat.float :=
  match v with
  | Some (VFloat x) => Some x
  | Some (VStr s) => float_of_str s
  | _ => None
  end.

Definition py_email `{Externals} (v : option value) : option string :=
  match v with
  | Some (VStr s) => validate_email s
  | _ => None
  end.

(** [Field(..., ge=0)]: the value must be greater than or equal to the
    bound; any other value, not-a-number among them, is refused. *)
Definition ge (bound : PrimFloat.float) (x : option PrimFloat.float)
  : option PrimFloat.float :=
  x ≫= λ x, if PrimFloat.leb bound x then Some x else None.

(** A field with a default *)
Definition py_str_default (dflt : string) (v : option value) : option string :=
  match v with
  | None => Some dflt
  | _ => py_str v
  end.

End Field.

Definition opt_value (s : option string) : value :=
  match s with
  | Some s => VStr s
  | None => VNone
  end.

Module RegisterPayload.
Record t := Build { name : string; email : string; password_hash : string }.

Definition validate `{Externals} (b : body) : list string + t :=
  inr Build
    <&> check "name" (Field.str (b !! "name"))
    <&> check "email" (Field.email (b !! "email"))
    <&> check "password_hash" (Field.str (b !! "password_hash")).
End RegisterPayload.

Module LoginPayload.
Record t := Build { email : string; password_hash : string }.

Definition validate `{Externals} (b : body) : list string + t :=
  inr Build
    <&> check "email" (Field.email (b !! "email"))
    <&> check "password_hash" (Field.str (b !! "password_hash")).
End LoginPayload.

Module ListingCreate.
Record t := Build {
  title : string;
  author : string;
  isbn : option string;
  price : float;
  condition : string;
  cover : option string;
  description : option string;
  seller_email : string;
}.

Definition validate `{Externals} (b : body) : list string + t :=
  inr Build
    <&> check "title" (Field.str (b !! "title"))
    <&> check "author" (Field.str (b !! "author"))
    <&> check "isbn" (Field.optional_str (b !! "isbn"))
    <&> check "price" (Field.float (b !! "price"))
    <&> check "condition" (Field.str (b !! "condition"))
    <&> check "cover" (Field.optional_str (b !! "cover"))
    <&> check "description" (Field.optional_str (b !! "description"))
    <&> check "seller_email" (Field.email (b !! "seller_email")).

Definition model_dump (p : t) : document :=
  {[ "title" := VStr (title p);
     "author" := VStr (author p);
     "isbn" := opt_value (isbn p);
     "price" := VFloat (price p);
     "condition" := VStr (condition p);
     "cover" := opt_value (cover p);
     "description" := opt_value (description p);
     "seller_email" := VStr (seller_email p) ]}.
End ListingCreate.

(** ** [schemas.py] *)

Module User.
Record t := Build { name : string; email : string; password_hash : string }.

(** [User(name=..., email=..., password_hash=...)] *)
Definition new `{Externals} (name email password_hash : string) : list string + t :=
  inr Build
    <&> check "name" (Some name)
    <&> check "email" (validate_email email)
    <&> check "password_hash" (Some password_hash).

Definition model_dump (u : t) : document :=
  {[ "name" := VStr (name u);
     "email" := VStr (email u);
     "password_hash" := VStr (password_hash u) ]}.
End User.

Module Listing.
Record t := Build {
  title : string;
  author : string;
  isbn : option string;
  price : float;
  condition : string;
  cover : option string;
  description : option string;
  seller_email : string;
  status : string;
}.

(** [Listing] called on the keyword arguments [kwargs] *)
Definition new `{Externals} (kwargs : document) : list string + t :=
  inr Build
    <&> check "title" (Field.py_str (kwargs !! "title"))
    <&> check "author" (Field.py_str (kwargs !! "author"))
    <&> check "isbn" (Field.py_optional_str (kwargs !! "isbn"))
    <&> check "price" (Field.ge 0 (Field.py_float (kwargs !! "price")))
    <&> check "condition" (Field.py_str (kwargs !! "condition"))
    <&> check "cover" (Field.py_optional_str (kwargs !! "cover"))
    <&> check "description" (Field.py_optional_str (kwargs !! "description"))
    <&> check "seller_email" (Field.py_email (kwargs !! "seller_email"))
    <&> check "status" (Field.py_str_default "active" (kwargs !! "status")).

Definition model_dump (l : t) : document :=
  {[ "title" := VStr (title l);
     "author" := VStr (author l);
     "isbn" := opt_value (isbn l);
     "price" := VFloat (price l);
     "condition" := VStr (condition l);
     "cover" := opt_value (cover l);
     "description" := opt_value (description l);
     "seller_email" := VStr (seller_email l);
     "status" := VStr (status l) ]}.
End Listing.

(** ** [main.py]: the handlers *)

Section Handlers.
Context `{Externals}.

(** A model constructed inside a handler: failure is pydantic's
    [ValidationError]. *)
Definition construct {A} (r : list string + A) : M A :=
  match r with
  | inr a => mret a
  | inl fields => raise (ValidationError fields)
  end.

(** [d.get(key)] and [d[key]] *)
Definition dict_get (d : option document) (key : string) : value :=
  default VNone (d ≫= (.!! key)).

Definition dict_item (d : option document) (key : string) : M value :=
  match d ≫= (.!! key) with
  | Some v => mret v
  | None => raise (KeyError key)
  end.

(** Modelled from the spec: [create_document] of [database.py], a file of
    the repository that is not among the sources.  The spec's Document
    Store Gateway issues the insert against the named collection and
    returns the generated identifier, which is text; a store that cannot
    be reached is a failure that the handler passes on. *)
Definition create_document (oid : ObjectId) (collection_name : string)
    (data : document) : M string :=
  inserted_id ← insert_one oid collection_name data;
  mret (py_str inserted_id).

(** Modelled from the spec: [get_documents] of [database.py], the
    gateway's find-many-with-filter on a named collection, which returns
    the raw documents. *)
Definition get_documents (collection_name : string) (filter_dict : filter_dict)
  : M (list document) :=
  find collection_name filter_dict.

(** [db["user"].find_one({"email": email}) if db else None] *)
Definition find_user (email : string) : M (option document) :=
  b ← db_bool;
  if b : bool then
    c ← db_getitem "user";
    find_one c {[ "email" := QEq (VStr email) ]}
  else mret None.

(** [oid] is the identifier the driver generates if the handler inserts. *)
Definition register (oid : ObjectId) (payload : RegisterPayload.t) : M document :=
  exists_ ← find_user (RegisterPayload.email payload);
  if truthy exists_ then raise (HTTPException 400 "Email already registered")
  else
    user ← construct (User.new (RegisterPayload.name payload)
                               (RegisterPayload.email payload)
                               (RegisterPayload.password_hash payload));
    uid ← create_document oid "user" (User.model_dump user);
    mret ({[ "id" := VStr uid;
             "name" := VStr (RegisterPayload.name payload);
             "email" := VStr (RegisterPayload.email payload) ]} : document).

Definition login (payload : LoginPayload.t) : M document :=
  user ← find_user (LoginPayload.email payload);
  if negb (truthy user)
     || negb (value_eqb (dict_get user "password_hash")
                        (VStr (LoginPayload.password_hash payload)))
  then raise (HTTPException 401 "Invalid credentials")
  else
    _id ← dict_item user "_id";
    mret ({[ "id" := VStr (py_str _id);
             "name" := dict_get user "name";
             "email" := dict_get user "email" ]} : document).

Definition create_listing (oid : ObjectId) (payload : ListingCreate.t) : M document :=
  seller ← find_user (ListingCreate.seller_email payload);
  if negb (truthy seller) then raise (HTTPException 400 "Seller not found")
  else
    listing ← construct (Listing.new (ListingCreate.model_dump payload));
    lid ← create_document oid "listing" (Listing.model_dump listing);
    mret ({[ "id" := VStr lid ]} : document).

(** Truth value of an optional query parameter *)
Definition str_truthy (s : option string) : bool :=
  match s with
  | None | Some "" => false
  | Some _ => true
  end.

Definition regex_clause (field : string) (param : option string)
    (filter_q : filter_dict) : filter_dict :=
  if str_truthy param then <[field := QRegex (default "" param) "i"]> filter_q
  else filter_q.

Definition list_listings (title author isbn : option string)
  : M (list (option document)) :=
  let filter_q : filter_dict := ∅ in
  let filter_q := regex_clause "title" title filter_q in
  let filter_q := regex_clause "author" author filter_q in
  let filter_q := regex_clause "isbn" isbn filter_q in
  docs ← get_documents "listing" filter_q;
  mret ((λ d, to_public (Some d)) <$> docs).

Definition get_listing (listing_id : string) : M (option document) :=
  doc ← try_except
           (c ← db_getitem "listing";
            oid ← match ObjectId_new listing_id with
                  | Some o => mret o
                  | None => raise InvalidId
                  end;
            find_one c {[ "_id" := QEq (VOid oid) ]})
           (λ _, raise (HTTPException 400 "Invalid ID"));
  if negb (truthy doc) then raise (HTTPException 404 "Not found")
  else mret (to_public doc).

(** *** The routes: FastAPI validates the body, then calls the handler. *)

Definition parse_body {A} (r : list string + A) : M A :=
  match r with
  | inr a => mret a
  | inl fields => raise (RequestValidationError fields)
  end.

Definition post_register (oid : ObjectId) (b : body) : M document :=
  payload ← parse_body (RegisterPayload.validate b);
  register oid payload.

Definition post_login (b : body) : M document :=
  payload ← parse_body (LoginPayload.validate b);
  login payload.

Definition post_listings (oid : ObjectId) (b : body) : M document :=
  payload ← parse_body (ListingCreate.validate b);
  create_listing oid payload.

End Handlers.

(** ** A concrete instance of the library functions, for running the model

    A pattern without an opening parenthesis is taken literally: the search
    is for a substring, and the option ["i"] makes it ignore letter case.  A
    pattern with an opening parenthesis is taken as not well formed.  An
    address is valid when it contains an at sign, and is its own normal
    form. *)
Module Demo.

Definition lower (c : ascii) : ascii :=
  let n := N_of_ascii c in
  if (65 <=? n)%N && (n <=? 90)%N then ascii_of_N (n + 32) else c.

Fixpoint starts_with (fold : ascii → ascii) (p s : string) : bool :=
  match p, s with
  | "", _ => true
  | String a p', String b s' => Ascii.eqb (fold a) (fold b) && starts_with fold p' s'
  | String _ _, "" => false
  end.

Fixpoint contains (fold : ascii → ascii) (p s : string) : bool :=
  starts_with fold p s
  || match s with
     | "" => false
     | String _ s' => contains fold p s'
     end.

Definition search (options pattern subject : string) : bool :=
  contains (if String.eqb options "i" then lower else id) pattern subject.

Definition regex (options pattern : string) : option (string → bool) :=
  if contains id "(" pattern then None else Some (search options pattern).

Definition email (s : string) : option string :=
  if contains id "@" s then Some s else None.

#[export] Instance lib : Externals := {|
  validate_email := email;
  float_of_str := λ _, None;
  float_repr := λ _, "float";
  regex_compile := regex;
|}.

Definition oid1 : ObjectId :=
  mkObjectId [x50; x7f; x1f; x77; xbc; xf8; x6c; xd7; x99; x43; x90; x11].
Definition oid2 : ObjectId :=
  mkObjectId [x50; x7f; x1f; x77; xbc; xf8; x6c; xd7; x99; x43; x90; x12].
Definition oid3 : ObjectId :=
  mkObjectId [x50; x7f; x1f; x77; xbc; xf8; x6c; xd7; x99; x43; x90; x13].

Definition alice : document :=
  {[ "_id" := VOid oid1; "name" := VStr "Alice"; "email" := VStr "alice@example.com";
     "password_hash" := VStr "5e884898" ]}.

Definition dune : document :=
  {[ "_id" := VOid oid2; "title" := VStr "DUNE Messiah"; "author" := VStr "Frank Herbert";
     "isbn" := VNone; "price" := VFloat 7.5; "condition" := VStr "Good";
     "cover" := VNone; "description" := VNone;
     "seller_email" := VStr "alice@example.com"; "status" := VStr "active" ]}.

Definition emma : document :=
  {[ "_id" := VOid oid3; "title" := VStr "Emma"; "author" := VStr "Jane Austen";
     "isbn" := VStr "9780141439587"; "price" := VFloat 4; "condition" := VStr "New";
     "cover" := VNone; "description" := VNone;
     "seller_email" := VStr "alice@example.com"; "status" := VStr "active" ]}.

Definition shop : store := {[ "user" := [alice]; "listing" := [dune; emma] ]}.

Definition online : world := {| db := Some shop; trace := [] |}.
Definition offline : world := {| db := None; trace := [] |}.

(** An identifier not yet in the store *)
Definition oid4 : ObjectId :=
  mkObjectId [x50; x7f; x1f; x77; xbc; xf8; x6c; xd7; x99; x43; x90; x14].

(** Requests *)
Definition bob : RegisterPayload.t :=
  {| RegisterPayload.name := "Bob"; RegisterPayload.email := "bob@example.com";
     RegisterPayload.password_hash := "2c26b46b" |}.

Definition alice_again : RegisterPayload.t :=
  {| RegisterPayload.name := "Alice"; RegisterPayload.email := "alice@example.com";
     RegisterPayload.password_hash := "2c26b46b" |}.

Definition unknown_login : LoginPayload.t :=
  {| LoginPayload.email := "bob@example.com"; LoginPayload.password_hash := "5e884898" |}.

Definition wrong_hash_login : LoginPayload.t :=
  {| LoginPayload.email := "alice@example.com"; LoginPayload.password_hash := "2c26b46b" |}.

Definition persuasion : ListingCreate.t :=
  {| ListingCreate.title := "Persuasion"; ListingCreate.author := "Jane Austen";
     ListingCreate.isbn := None; ListingCreate.price := 3.5;
     ListingCreate.condition := "Good"; ListingCreate.cover := None;
     ListingCreate.description := None;
     ListingCreate.seller_email := "alice@example.com" |}.

Definition orphan : ListingCreate.t :=
  {| ListingCreate.title := "Persuasion"; ListingCreate.author := "Jane Austen";
     ListingCreate.isbn := None; ListingCreate.price := 3.5;
     ListingCreate.condition := "Good"; ListingCreate.cover := None;
     ListingCreate.description := None;
     ListingCreate.seller_email := "bob@example.com" |}.

(** A CreateListing body with the price [-1], from a registered seller,
    and the same body from an address that is not registered. *)
Definition negative_price : body :=
  {[ "title" := JStr "Dune"; "author" := JStr "Frank Herbert";
     "price" := JNum (-1); "condition" := JStr "Good";
     "seller_email" := JStr "alice@example.com" ]}.

Definition negative_price_orphan : body :=
  <["seller_email" := JStr "bob@example.com"]> negative_price.

(** Bodies whose [name], [title] and [author] are the empty text *)
Definition nameless : body :=
  {[ "name" := JStr ""; "email" := JStr "bob@example.com";
     "password_hash" := JStr "2c26b46b" ]}.

Definition untitled : body :=
  {[ "title" := JStr ""; "author" := JStr "";
     "price" := JNum 3.5; "condition" := JStr "Good";
     "seller_email" := JStr "alice@example.com" ]}.

End Demo.

(** ** Vocabulary of the statements *)

Definition users (w : world) : list document :=
  match db w with
  | Some st => documents st "user"
  | None => []
  end.

Definition listings (w : world) : list document :=
  match db w with
  | Some st => documents st "listing"
  | None => []
  end.

(** The store assigns [oid] to no document of the list. *)
Definition unused (oid : ObjectId) (docs : list document) : Prop :=
  ∀ d, d ∈ docs → d !! "_id" ≠ Some (VOid oid).

(** The fields a validation reports *)
Definition errors {A} (r : list string + A) : list string :=
  match r with
  | inl fields => fields
  | inr _ => []
  end.

(** The listing that CreateListing stores for a payload: its fields, the
    seller's address as validated, and the default status. *)
Definition Listing_of (p : ListingCreate.t) (seller_email : string) : Listing.t :=
  {| Listing.title := ListingCreate.title p;
     Listing.author := ListingCreate.author p;
     Listing.isbn := ListingCreate.isbn p;
     Listing.price := ListingCreate.price p;
     Listing.condition := ListingCreate.condition p;
     Listing.cover := ListingCreate.cover p;
     Listing.description := ListingCreate.description p;
     Listing.seller_email := seller_email;
     Listing.status := "active" |}.

(** A payload model requires [field] to be text and asks nothing more of it:
    a body whose [field] is text is not refused on its account and the
    payload carries that text; any other body is refused, [field] among the
    fields reported. *)
Definition requires_text {A} (validate : body → list string + A)
    (get : A → string) (field : string) : Prop :=
  ∀ b : body,
    match b !! field with
    | Some (JStr s) =>
        (field ∉ errors (validate b)) ∧ (∀ p, validate b = inr p → get p = s)
    | _ => ∃ fields, validate b = inl fields ∧ field ∈ fields
    end.

Section SearchSpec.
Context `{Externals}.

(** What the spec says of one filter of ListListings: a filter that is
    present (supplied, and not the empty text) must match the stored field
    as a case-insensitive pattern; an absent one asks nothing. *)
Definition filter_accepts (param : option string) (field : option value) : bool :=
  match param with
  | None | Some "" => true
  | Some pattern =>
      match regex_compile "i" pattern, field with
      | Some search, Some (VStr s) => search s
      | _, _ => false
      end
  end.

(** A filter that is present holds a well-formed pattern. *)
Definition pattern_ok (param : option string) : bool :=
  match param with
  | None | Some "" => true
  | Some pattern => bool_decide (is_Some (regex_compile "i" pattern))
  end.


(** The present filters are taken together. *)
Definition listing_selected (title author isbn : option string) (d : document) : bool :=
  filter_accepts title (d !! "title")
  && filter_accepts author (d !! "author")
  && filter_accepts isbn (d !! "isbn").

End SearchSpec.

(** ** [main.py]: the health check *)

(** What a call on the database handle comes to: a result, or an exception
    with its message. *)
Inductive outcome (A : Type) :=
| Returns (a : A)
| Raises (message : string).
Arguments Returns {A} a.
Arguments Raises {A} message.

(** The handle as [test_database] uses it: the attribute [name], [None] when
    the handle has no such attribute, and the answer of
    [list_collection_names]. *)
Record handle := Handle {
  getattr_name : outcome (option json);
  list_collection_names : outcome (list string);
}.

(** A byte that continues a character of a text in UTF-8 *)
Definition is_continuation (c : ascii) : bool :=
  let n := N_of_ascii c in (128 <=? n)%N && (n <? 192)%N.

(** [s[:n]], the first [n] characters of a text held in UTF-8 *)
Fixpoint py_take (n : nat) (s : string) : string :=
  match s with
  | "" => ""
  | String c r =>
      if is_continuation c then String c (py_take n r)
      else match n with
           | 0 => ""
           | S n' => String c (py_take n' r)
           end
  end.

(** Truth value of [os.getenv(name)] *)
Definition env_truthy (v : option string) : bool :=
  match v with
  | None | Some "" => false
  | Some _ => true
  end.

Definition test_database (getenv : string → option string) (db : option handle)
  : gmap string json :=
  let response : gmap string json :=
    {[ "backend" := JStr "✅ Running";
       "database" := JStr "❌ Not Available";
       "database_url" := JStr "❌ Not Set";
       "database_name" := JStr "❌ Not Set";
       "connection_status" := JStr "Not Connected";
       "collections" := JArr [] ]} in
  let response :=
    match db with
    | None => response
    | Some h =>
        let response := <["database" := JStr "✅ Available"]> response in
        let response := <["database_url" := JStr "✅ Set"]> response in
        match getattr_name h with
        | Raises message =>
            <["database" := JStr ("❌ Error: " ++ py_take 80 message)]> response
        | Returns name =>
            let response :=
              <["database_name" := default (JStr "✅ Connected") name]> response in
            let response := <["connection_status" := JStr "Connected"]> response in
            match list_collection_names h with
            | Returns collections =>
                let response :=
                  <["collections" := JArr (JStr <$> take 10 collections)]> response in
                <["database" := JStr "✅ Connected & Working"]> response
            | Raises message =>
                <["database" :=
                    JStr ("⚠️ Connected but Error: " ++ py_take 80 message)]> response
            end
        end
    end in
  let response :=
    <["database_url" :=
        JStr (if env_truthy (getenv "DATABASE_URL") then "✅ Set" else "❌ Not Set")]>
      response in
  <["database_name" :=
      JStr (if env_truthy (getenv "DATABASE_NAME") then "✅ Set" else "❌ Not Set")]>
    response.

(** ** Vocabulary for the effects of a handler *)

(** A computation that issues at most [n] store operations, whatever the
    state it runs in. *)
Definition calls_at_most (n : nat) {A} (m : M A) : Prop :=
  ∀ w, ∃ ops, trace (m w).2 = (trace w ++ ops)%list ∧ (length ops ≤ n)%nat.

(** A computation that leaves the store as it found it, whether it returns
    or raises. *)
Definition read_only {A} (m : M A) : Prop :=
  ∀ w, db (m w).2 = db w.

(** The number of characters of a text held in UTF-8 *)
Fixpoint py_len (s : string) : nat :=
  match s with
  | "" => 0
  | String c r => if is_continuation c then py_len r else S (py_len r)
  end.

(** Handles and environments for running the health check *)
Module Probe.

Definition getenv_none : string → option string := λ _, None.

Definition getenv_url : string → option string :=
  λ name, if String.eqb name "DATABASE_URL" then Some "mongodb://localhost" else None.

Definition many : list string :=
  ["c01"; "c02"; "c03"; "c04"; "c05"; "c06"; "c07"; "c08"; "c09"; "c10"; "c11"; "c12"].

Definition working : handle :=
  {| getattr_name := Returns (Some (JStr "books"));
     list_collection_names := Returns many |}.

(** A store with one short listing *)
Definition leaflet : document :=
  {[ "_id" := VOid (mkObjectId [x50; x7f; x1f; x77; xbc; xf8; x6c; xd7; x99; x43; x90; x15]);
     "title" := VStr "Leaflet" ]}.

Definition kiosk : world :=
  {| db := Some {[ "listing" := [leaflet] ]}; trace := [] |}.

Definition failing : handle :=
  {| getattr_name := Returns (Some (JStr "books"));
     list_collection_names := Raises "connection refused" |}.

End Probe.

(** * Properties *)

(** ** Identifiers as text *)

Module HexFacts.
Import Hex.

Lemma fromhex_of_byte (b : byte) (rest : string) :
  fromhex (of_byte b rest) = (b ::.) <$> fromhex rest.
Proof. destruct b; reflexivity. Qed.

Lemma fromhex_hex (l : list byte) : fromhex (hex l) = Some l.
Proof.
  induction l as [|b l IH]; [reflexivity|].
  change (hex (b :: l)) with (of_byte b (hex l)).
  by rewrite fromhex_of_byte, IH.
Qed.

Lemma length_hex (l : list byte) : String.length (hex l) = 2 * length l.
Proof. induction l as [|b l IH]; simpl; [done | rewrite IH; lia]. Qed.

End HexFacts.

Lemma ObjectId_new_str (o : ObjectId) :
  ObjectId_wf o → ObjectId_new (ObjectId_str o) = Some o.
Proof.
  destruct o as [l]. unfold ObjectId_wf, ObjectId_new, ObjectId_str. simpl.
  intros Hl. rewrite HexFacts.length_hex, Hl. simpl.
  by rewrite HexFacts.fromhex_hex.
Qed.

Lemma ObjectId_str_nonempty (o : ObjectId) :
  ObjectId_wf o → ObjectId_str o ≠ "".
Proof.
  intros Hl E. apply (f_equal String.length) in E.
  unfold ObjectId_str in E. rewrite HexFacts.length_hex, Hl in E. discriminate.
Qed.

Lemma ObjectId_eqb_eq (a b : ObjectId) : ObjectId_eqb a b = true ↔ a = b.
Proof.
  unfold ObjectId_eqb. rewrite bool_decide_eq_true.
  split; [|by intros ->].
  destruct a as [l], b as [l']. simpl. intros E. f_equal.
  revert l' E. induction l as [|x l IH]; intros [|y l'] E; try done.
  simpl in E. injection E as Exy E. f_equal; [|by apply IH].
  assert (Byte.of_N (Byte.to_N x) = Byte.of_N (Byte.to_N y)) as E' by by rewrite Exy.
  rewrite !Byte.of_to_N in E'. by injection E'.
Qed.

(** ** The public-view mapper *)

Section MapperFacts.
Context `{Externals}.

Lemma truthy_Some (d : document) : truthy (Some d) = true ↔ d ≠ ∅.
Proof.
  simpl. rewrite negb_true_iff, Nat.eqb_neq. by rewrite map_size_non_empty_iff.
Qed.

Lemma truthy_lookup (d : document) (k : string) (v : value) :
  d !! k = Some v → truthy (Some d) = true.
Proof. intros Hk. apply truthy_Some. intros ->. by rewrite lookup_empty in Hk. Qed.

Lemma to_public_None : to_public None = None.
Proof. reflexivity. Qed.

Lemma to_public_empty : to_public (Some ∅) = Some ∅.
Proof. reflexivity. Qed.

Lemma to_public_id (d : document) (v : value) :
  d !! "_id" = Some v →
  to_public (Some d) = Some (<["id" := VStr (py_str v)]> (delete "_id" d)).
Proof.
  intros Hid. unfold to_public. rewrite (truthy_lookup _ _ _ Hid). simpl.
  by rewrite Hid.
Qed.

(** C4. A document that holds the internal identifier under ["_id"] is
    mapped to one without the key ["_id"], with the identifier as text
    under ["id"], and with every other key at the value it had; [None]
    (no document) is mapped to itself. *)
Theorem to_public_spec (doc : option document) :
  match doc with
  | None => to_public doc = doc
  | Some d =>
      ∀ v, d !! "_id" = Some v →
        ∃ d', to_public doc = Some d'
              ∧ d' !! "_id" = None
              ∧ d' !! "id" = Some (VStr (py_str v))
              ∧ ∀ k, k ≠ "_id" → k ≠ "id" → d' !! k = d !! k
  end.
Proof.
  destruct doc as [d|]; [|reflexivity].
  intros v Hid. eexists. split; [by apply to_public_id|].
  split; [|split].
  - rewrite lookup_insert_ne by done. apply lookup_delete_eq.
  - apply lookup_insert_eq.
  - intros k Hk1 Hk2. rewrite lookup_insert_ne by done.
    by rewrite lookup_delete_ne.
Qed.

(** The identifier of a stored document is rendered as its hexadecimal text. *)
Lemma to_public_ObjectId (d : document) (o : ObjectId) :
  d !! "_id" = Some (VOid o) →
  to_public (Some d) ≫= (.!! "id") = Some (VStr (ObjectId_str o)).
Proof. intros Hid. rewrite (to_public_id _ _ Hid). simpl. apply lookup_insert_eq. Qed.

(** *** On the heap *)

Lemma fresh_loc (h : heap) (l : nat) (d : document) :
  h !! l = Some d → l ≠ fresh (dom h).
Proof.
  intros Hl ->. apply (is_fresh (dom h)). apply elem_of_dom. by eexists.
Qed.

(** X3. On the heap, [to_public] computes the mapping of the functional
    view: the dictionary its result refers to holds what [to_public] maps
    the contents of its argument to. *)
Lemma to_public_h_deref (h : heap) (doc : pyref) :
  deref (to_public_h h doc).1 (to_public_h h doc).2 = to_public (deref h doc).
Proof.
  unfold to_public_h, to_public.
  destruct (truthy (deref h doc)) eqn:Ht; simpl; [|done].
  destruct doc as [|l]; [done|]. simpl in *.
  destruct (h !! l) as [d|] eqn:Hl; [|done]. simpl.
  unfold dict_contains, dict_pop, dict_setitem.
  rewrite !lookup_insert_eq. simpl.
  destruct (d !! "_id") as [v|] eqn:Hid.
  - rewrite bool_decide_eq_true_2 by by eexists. simpl.
    rewrite !lookup_alter_eq, lookup_insert_eq. done.
  - rewrite bool_decide_eq_false_2 by by intros [? ?].
    simpl. by rewrite lookup_insert_eq.
Qed.

(** C10. [to_public] leaves the dictionary it is given as it was: after the
    call the argument (and every other object on the heap) has the contents
    it had before, so a document that held ["_id"] still holds it. *)
Theorem to_public_h_frame (h : heap) (l : nat) (d : document) :
  h !! l = Some d →
  (to_public_h h (PDict l)).1 !! l = Some d
  ∧ (∀ l' d', h !! l' = Some d' → (to_public_h h (PDict l)).1 !! l' = Some d')
  ∧ (∀ v, d !! "_id" = Some v →
       (to_public_h h (PDict l)).1 !! l ≫= (.!! "_id") = Some v).
Proof.
  intros Hl.
  assert (∀ l' d', h !! l' = Some d' →
                   (to_public_h h (PDict l)).1 !! l' = Some d') as Hframe.
  { intros l' d' Hl'. pose proof (fresh_loc _ _ _ Hl') as Hne.
    unfold to_public_h. destruct (negb _); [done|].
    unfold dict_copy, dict_contains, dict_pop, dict_setitem.
    destruct (bool_decide _); simpl.
    - rewrite !lookup_alter_ne by done. by rewrite lookup_insert_ne.
    - by rewrite lookup_insert_ne. }
  split; [by apply Hframe|]. split; [done|].
  intros v Hv. by rewrite (Hframe _ _ Hl).
Qed.

End MapperFacts.


(** ** The store *)

Section StoreFacts.
Context `{Externals}.

Lemma value_eqb_VStr (v : value) (s : string) :
  value_eqb v (VStr s) = true ↔ v = VStr s.
Proof.
  destruct v; simpl; try by split.
  rewrite String.eqb_eq. split; [by intros -> | by intros [= ->]].
Qed.

Lemma value_eqb_VOid (v : value) (o : ObjectId) :
  value_eqb v (VOid o) = true ↔ v = VOid o.
Proof.
  destruct v; simpl; try by split.
  rewrite ObjectId_eqb_eq. split; [by intros -> | by intros [= ->]].
Qed.

Lemma doc_matches_empty (d : document) : doc_matches ∅ d = true.
Proof. apply bool_decide_eq_true_2, map_Forall_empty. Qed.

Lemma doc_matches_insert (f : filter_dict) (k : string) (q : query) (d : document) :
  f !! k = None →
  doc_matches (<[k := q]> f) d = query_holds q (d !! k) && doc_matches f d.
Proof.
  intros Hk. unfold doc_matches.
  apply eq_true_iff_eq.
  rewrite andb_true_iff, !bool_decide_eq_true.
  by rewrite map_Forall_insert.
Qed.

Lemma filter_ok_empty : filter_ok ∅ = true.
Proof. apply bool_decide_eq_true_2, map_Forall_empty. Qed.

Lemma filter_ok_insert (f : filter_dict) (k : string) (q : query) :
  f !! k = None → filter_ok (<[k := q]> f) = query_ok q && filter_ok f.
Proof.
  intros Hk. unfold filter_ok.
  apply eq_true_iff_eq.
  rewrite andb_true_iff, !bool_decide_eq_true.
  by rewrite map_Forall_insert.
Qed.

Lemma filter_ok_singleton (k : string) (q : query) :
  filter_ok {[ k := q ]} = query_ok q.
Proof.
  rewrite <-insert_empty, filter_ok_insert by apply lookup_empty.
  by rewrite filter_ok_empty, andb_true_r.
Qed.

Lemma doc_matches_singleton (k : string) (q : query) (d : document) :
  doc_matches {[ k := q ]} d = query_holds q (d !! k).
Proof.
  rewrite <-insert_empty, doc_matches_insert by apply lookup_empty.
  by rewrite doc_matches_empty, andb_true_r.
Qed.

Lemma matches_email (e : string) (d : document) :
  doc_matches {[ "email" := QEq (VStr e) ]} d = true ↔ d !! "email" = Some (VStr e).
Proof.
  rewrite doc_matches_singleton. simpl.
  destruct (d !! "email") as [v|]; [|done].
  rewrite value_eqb_VStr. split; [by intros -> | by intros [= ->]].
Qed.

Lemma matches_id (o : ObjectId) (d : document) :
  doc_matches {[ "_id" := QEq (VOid o) ]} d = true ↔ d !! "_id" = Some (VOid o).
Proof.
  rewrite doc_matches_singleton. simpl.
  destruct (d !! "_id") as [v|]; [|done].
  rewrite value_eqb_VOid. split; [by intros -> | by intros [= ->]].
Qed.

Lemma has_id_spec (o : ObjectId) (d : document) :
  has_id (VOid o) d = true ↔ d !! "_id" = Some (VOid o).
Proof.
  unfold has_id. destruct (d !! "_id") as [v|]; [|done].
  rewrite value_eqb_VOid. split; [by intros -> | by intros [= ->]].
Qed.

(** [find_one] answers with the first match in insertion order. *)
Lemma find_None {A} (f : A → bool) (l : list A) :
  List.find f l = None ↔ ∀ x, x ∈ l → f x = false.
Proof.
  induction l as [|a l IH]; simpl.
  - split; [|done]. intros _ x Hx. by apply elem_of_nil in Hx.
  - destruct (f a) eqn:Hfa.
    + split; [done|]. intros Hall. specialize (Hall a (list_elem_of_here _ _)). congruence.
    + rewrite IH. split.
      * intros Hall x [->|Hx]%elem_of_cons; auto.
      * intros Hall x Hx. apply Hall. by apply list_elem_of_further.
Qed.

Lemma find_Some {A} (f : A → bool) (l : list A) (x : A) :
  List.find f l = Some x → x ∈ l ∧ f x = true.
Proof.
  induction l as [|a l IH]; simpl; [done|].
  destruct (f a) eqn:Hfa.
  - intros [= ->]. split; [apply list_elem_of_here | done].
  - intros [Hx Hf]%IH. split; [by apply list_elem_of_further | done].
Qed.

Lemma find_app_first {A} (f : A → bool) (l l' : list A) (x : A) :
  (∀ y, y ∈ l → f y = false) → f x = true →
  List.find f (l ++ x :: l') = Some x.
Proof.
  intros Hl Hx. induction l as [|a l IH]; simpl.
  - by rewrite Hx.
  - rewrite (Hl a (list_elem_of_here _ _)). apply IH.
    intros y Hy. apply Hl. by apply list_elem_of_further.
Qed.

End StoreFacts.

(** ** The handlers *)

#[local] Arguments ap : simpl never.
#[local] Arguments check : simpl never.
#[local] Arguments truthy : simpl never.
#[local] Arguments to_public : simpl never.
#[local] Arguments User.new : simpl never.
#[local] Arguments User.model_dump : simpl never.
#[local] Arguments Listing.new : simpl never.
#[local] Arguments Listing.model_dump : simpl never.
#[local] Arguments ListingCreate.model_dump : simpl never.
#[local] Arguments ObjectId_str : simpl never.

Ltac run :=
  unfold mbind, M_bind, bind, mret, M_ret, ret, raise, try_except,
    db_getitem, find_one, find, construct, parse_body; simpl.

Section HandlerFacts.
Context `{Externals}.

Lemma bind_Ok {A B} (m : M A) (k : A → M B) (w w' : world) (a : A) :
  m w = (Ok a, w') → (m ≫= k) w = k a w'.
Proof. intros Hm. unfold mbind, M_bind, bind. by rewrite Hm. Qed.

Lemma bind_Raise {A B} (m : M A) (k : A → M B) (w w' : world) (e : error) :
  m w = (Raise e, w') → (m ≫= k) w = (Raise e, w').
Proof. intros Hm. unfold mbind, M_bind, bind. by rewrite Hm. Qed.

Lemma construct_inr {A} (r : list string + A) (a : A) (w : world) :
  r = inr a → construct r w = (Ok a, w).
Proof. by intros ->. Qed.

Lemma construct_inl {A} (r : list string + A) (fields : list string) (w : world) :
  r = inl fields → construct r w = (Raise (ValidationError fields), w).
Proof. by intros ->. Qed.

(** *** The truth test of the handle *)

Lemma find_user_present (email : string) (w : world) (st : store) :
  db w = Some st → find_user email w = (Raise NotImplementedError, w).
Proof.
  intros Hdb. unfold find_user, mbind, M_bind, bind, db_bool. by rewrite Hdb.
Qed.

Lemma find_user_offline (email : string) (w : world) :
  db w = None → find_user email w = (Ok None, w).
Proof.
  intros Hdb. unfold find_user, mbind, M_bind, bind, db_bool. by rewrite Hdb.
Qed.

Lemma register_present (oid : ObjectId) (p : RegisterPayload.t) (w : world) (st : store) :
  db w = Some st → register oid p w = (Raise NotImplementedError, w).
Proof.
  intros Hdb. unfold register.
  by rewrite (bind_Raise _ _ _ _ _ (find_user_present _ _ _ Hdb)).
Qed.

Lemma login_present (p : LoginPayload.t) (w : world) (st : store) :
  db w = Some st → login p w = (Raise NotImplementedError, w).
Proof.
  intros Hdb. unfold login.
  by rewrite (bind_Raise _ _ _ _ _ (find_user_present _ _ _ Hdb)).
Qed.

Lemma create_listing_present (oid : ObjectId) (p : ListingCreate.t) (w : world) (st : store) :
  db w = Some st → create_listing oid p w = (Raise NotImplementedError, w).
Proof.
  intros Hdb. unfold create_listing.
  by rewrite (bind_Raise _ _ _ _ _ (find_user_present _ _ _ Hdb)).
Qed.

Lemma login_offline (p : LoginPayload.t) (w : world) :
  db w = None → login p w = (Raise InvalidCredentials, w).
Proof.
  intros Hdb. unfold login.
  by rewrite (bind_Ok _ _ _ _ _ (find_user_offline _ _ Hdb)).
Qed.

Lemma create_listing_offline (oid : ObjectId) (p : ListingCreate.t) (w : world) :
  db w = None → create_listing oid p w = (Raise SellerNotFound, w).
Proof.
  intros Hdb. unfold create_listing.
  by rewrite (bind_Ok _ _ _ _ _ (find_user_offline _ _ Hdb)).
Qed.

(** *** GetListing *)

Lemma get_listing_offline (listing_id : string) (w : world) :
  db w = None → get_listing listing_id w = (Raise MalformedId, w).
Proof. intros Hdb. unfold get_listing. run. by rewrite Hdb. Qed.

Lemma get_listing_malformed (listing_id : string) (w : world) :
  ObjectId_new listing_id = None →
  get_listing listing_id w = (Raise MalformedId, w).
Proof.
  intros Hid. unfold get_listing. run. rewrite Hid.
  by destruct (db w).
Qed.

(** With the store reachable, GetListing tells the three cases apart as
    the spec says. *)
Lemma get_listing_online (listing_id : string) (w : world) (st : store) :
  db w = Some st →
  match ObjectId_new listing_id with
  | None => get_listing listing_id w = (Raise MalformedId, w)
  | Some oid =>
      match List.find (doc_matches {[ "_id" := QEq (VOid oid) ]}) (listings w) with
      | None =>
          get_listing listing_id w = (Raise NotFound, log (FindOne "listing") w)
      | Some d =>
          get_listing listing_id w
          = (Ok (to_public (Some d)), log (FindOne "listing") w)
      end
  end.
Proof.
  intros Hdb. destruct (ObjectId_new listing_id) as [oid|] eqn:Hid;
    [|by apply get_listing_malformed].
  unfold get_listing, listings. run. rewrite Hdb, Hid. simpl. rewrite Hdb.
  rewrite filter_ok_singleton. simpl.
  destruct (List.find _ _) as [d|] eqn:Hfind; simpl; [|done].
  destruct (find_Some _ _ _ Hfind) as [_ Hd%matches_id].
  by rewrite (truthy_lookup _ _ _ Hd).
Qed.

End HandlerFacts.
(** ** ListListings *)

Section SearchFacts.
Context `{Externals}.

Lemma doc_matches_regex_clause (field : string) (param : option string)
    (f : filter_dict) (d : document) :
  f !! field = None →
  doc_matches (regex_clause field param f) d
  = filter_accepts param (d !! field) && doc_matches f d.
Proof.
  intros Hf. unfold regex_clause.
  destruct param as [[|c s]|]; simpl; try done.
  rewrite doc_matches_insert by done. f_equal. simpl.
  destruct (regex_compile "i" (String c s)), (d !! field) as [[]|]; done.
Qed.

Lemma filter_ok_regex_clause (field : string) (param : option string) (f : filter_dict) :
  f !! field = None →
  filter_ok (regex_clause field param f) = pattern_ok param && filter_ok f.
Proof.
  intros Hf. unfold regex_clause.
  destruct param as [[|c s]|]; simpl; try done.
  by rewrite filter_ok_insert.
Qed.

Lemma regex_clause_lookup_ne (field k : string) (param : option string)
    (f : filter_dict) :
  field ≠ k → regex_clause field param f !! k = f !! k.
Proof.
  intros Hne. unfold regex_clause.
  destruct (str_truthy param); [by rewrite lookup_insert_ne | done].
Qed.

(** The filter the handler builds selects what the spec's words select. *)
Lemma filter_q_selects (title author isbn : option string) (d : document) :
  doc_matches
    (regex_clause "isbn" isbn
       (regex_clause "author" author (regex_clause "title" title ∅))) d
  = listing_selected title author isbn d.
Proof.
  unfold listing_selected.
  rewrite doc_matches_regex_clause
    by by rewrite !regex_clause_lookup_ne.
  rewrite doc_matches_regex_clause
    by by rewrite !regex_clause_lookup_ne.
  rewrite doc_matches_regex_clause by done.
  rewrite doc_matches_empty.
  by destruct (filter_accepts title _), (filter_accepts author _),
    (filter_accepts isbn _).
Qed.

(** The store can evaluate the filter when every present pattern is well
    formed. *)
Lemma filter_q_ok (title author isbn : option string) :
  filter_ok
    (regex_clause "isbn" isbn
       (regex_clause "author" author (regex_clause "title" title ∅)))
  = pattern_ok title && pattern_ok author && pattern_ok isbn.
Proof.
  rewrite filter_ok_regex_clause
    by by rewrite !regex_clause_lookup_ne.
  rewrite filter_ok_regex_clause
    by by rewrite !regex_clause_lookup_ne.
  rewrite filter_ok_regex_clause by done.
  rewrite filter_ok_empty.
  by destruct (pattern_ok title), (pattern_ok author), (pattern_ok isbn).
Qed.

Lemma to_public_no_id (d : document) :
  d !! "_id" = None → to_public (Some d) = Some d.
Proof.
  intros Hid. unfold to_public. destruct (truthy (Some d)); simpl; [|done].
  by rewrite Hid.
Qed.



Lemma list_listings_run (title author isbn : option string) (w : world) (st : store) :
  db w = Some st →
  list_listings title author isbn w
  = if pattern_ok title && pattern_ok author && pattern_ok isbn
    then (Ok ((λ d, to_public (Some d))
                <$> List.filter (listing_selected title author isbn) (listings w)),
          log (Find "listing") w)
    else (Raise OperationFailure, log (Find "listing") w).
Proof.
  intros Hdb. unfold list_listings, get_documents, listings.
  unfold mbind, M_bind, bind, find. rewrite Hdb, filter_q_ok.
  destruct (_ && _); [|done]. unfold mret, M_ret, ret. do 3 f_equal.
  apply List.filter_ext. intros d. apply filter_q_selects.
Qed.


(** C9. A filter parameter supplied as the empty text constrains nothing:
    the call has the outcome of the call without that parameter. *)
Theorem list_listings_empty_param (title author isbn : option string) (w : world) :
  list_listings (Some "") author isbn w = list_listings None author isbn w
  ∧ list_listings title (Some "") isbn w = list_listings title None isbn w
  ∧ list_listings title author (Some "") w = list_listings title author None w.
Proof. done. Qed.

(** Without a store the gateway's failure is passed on. *)
Lemma list_listings_offline (title author isbn : option string) (w : world) :
  db w = None →
  list_listings title author isbn w = (Raise StoreUnavailable, w).
Proof.
  intros Hdb. unfold list_listings, get_documents. run. by rewrite Hdb.
Qed.

End SearchFacts.

(** ** Validation *)

Section ValidationFacts.
Context `{Externals}.

Lemma errors_ap {A B} (f : list string + (A → B)) (x : list string + A) :
  errors (f <&> x) = (errors f ++ errors x)%list.
Proof.
  destruct f as [e|g], x as [e'|a]; unfold ap; simpl;
    rewrite ?app_nil_r; reflexivity.
Qed.

Lemma elem_of_errors_check {A} (field name : string) (r : option A) :
  field ∈ errors (check name r) ↔ field = name ∧ r = None.
Proof.
  destruct r; simpl.
  - split; [by intros ?%elem_of_nil | by intros [_ ?]].
  - rewrite list_elem_of_singleton. intuition.
Qed.

Lemma errors_inl {A} (r : list string + A) (field : string) :
  field ∈ errors r → ∃ fields, r = inl fields ∧ field ∈ fields.
Proof.
  destruct r as [fields|a]; simpl; [by eauto|]. by intros ?%elem_of_nil.
Qed.

Lemma ap_inr {A B} (f : list string + (A → B)) (x : list string + A) (p : B) :
  f <&> x = inr p → ∃ g a, f = inr g ∧ x = inr a ∧ p = g a.
Proof. destruct f as [e|g], x as [e'|a]; unfold ap; intros [= <-]; eauto. Qed.

Lemma check_inr {A} (name : string) (r : option A) (a : A) :
  check name r = inr a → r = Some a.
Proof. destruct r; unfold check; by intros [= <-]. Qed.

Lemma check_Some {A} (name : string) (a : A) : check name (Some a) = inr a.
Proof. reflexivity. Qed.

Lemma requires_text_intro {A} (validate : body → list string + A)
    (get : A → string) (field : string) :
  (∀ b, field ∈ errors (validate b) ↔ Field.str (b !! field) = None) →
  (∀ b p, validate b = inr p → Field.str (b !! field) = Some (get p)) →
  requires_text validate get field.
Proof.
  intros Herr Hok b. specialize (Herr b). specialize (Hok b).
  destruct (b !! field) as [[ | | |s| | ]|]; simpl in *;
    try (apply errors_inl; by apply Herr).
  split.
  - intros [=]%Herr.
  - intros p [= ->]%Hok. done.
Qed.

Ltac invert_validate Hv :=
  repeat match type of Hv with
    | _ <&> _ = inr _ =>
        let g := fresh "g" in let a := fresh "a" in let Ha := fresh "Ha" in
        apply ap_inr in Hv as (g & a & Hv & Ha%check_inr & ->)
    end;
  injection Hv as <-.

Ltac field_errors :=
  rewrite !errors_ap, !elem_of_app, !elem_of_errors_check; simpl;
  rewrite elem_of_nil; intuition discriminate.

Lemma RegisterPayload_name :
  requires_text RegisterPayload.validate RegisterPayload.name "name".
Proof.
  apply requires_text_intro; intros b; unfold RegisterPayload.validate.
  - field_errors.
  - intros p Hv. invert_validate Hv. done.
Qed.

Lemma ListingCreate_title :
  requires_text ListingCreate.validate ListingCreate.title "title".
Proof.
  apply requires_text_intro; intros b; unfold ListingCreate.validate.
  - field_errors.
  - intros p Hv. invert_validate Hv. done.
Qed.

Lemma ListingCreate_author :
  requires_text ListingCreate.validate ListingCreate.author "author".
Proof.
  apply requires_text_intro; intros b; unfold ListingCreate.validate.
  - field_errors.
  - intros p Hv. invert_validate Hv. done.
Qed.

(** C8, as the code has it.  Register's [name] and CreateListing's [title]
    and [author] must be present and be text, and a body that fails this
    is refused with the field reported; no length is asked for, so the
    empty text passes like any other. *)
Theorem text_fields_any_text :
  requires_text RegisterPayload.validate RegisterPayload.name "name"
  ∧ requires_text ListingCreate.validate ListingCreate.title "title"
  ∧ requires_text ListingCreate.validate ListingCreate.author "author".
Proof.
  split; [apply RegisterPayload_name|].
  split; [apply ListingCreate_title | apply ListingCreate_author].
Qed.

(** The stored models ask no more of these fields than the payloads do. *)
Lemma User_new_name (name email password_hash : string) (e : string) :
  validate_email email = Some e →
  User.new name email password_hash = inr (User.Build name e password_hash).
Proof. intros He. unfold User.new. by rewrite He. Qed.

End ValidationFacts.

(** ** The stored listing *)

Section ListingFacts.
Context `{Externals}.

Lemma py_optional_str_opt_value (o : option string) :
  Field.py_optional_str (Some (opt_value o)) = Some o.
Proof. by destruct o. Qed.

Lemma kwargs_lookup (p : ListingCreate.t) :
  let kwargs := ListingCreate.model_dump p in
  kwargs !! "title" = Some (VStr (ListingCreate.title p))
  ∧ kwargs !! "author" = Some (VStr (ListingCreate.author p))
  ∧ kwargs !! "isbn" = Some (opt_value (ListingCreate.isbn p))
  ∧ kwargs !! "price" = Some (VFloat (ListingCreate.price p))
  ∧ kwargs !! "condition" = Some (VStr (ListingCreate.condition p))
  ∧ kwargs !! "cover" = Some (opt_value (ListingCreate.cover p))
  ∧ kwargs !! "description" = Some (opt_value (ListingCreate.description p))
  ∧ kwargs !! "seller_email" = Some (VStr (ListingCreate.seller_email p))
  ∧ kwargs !! "status" = None.
Proof. repeat split; reflexivity. Qed.

Lemma Listing_new_ok (p : ListingCreate.t) (e : string) :
  PrimFloat.leb 0 (ListingCreate.price p) = true →
  validate_email (ListingCreate.seller_email p) = Some e →
  Listing.new (ListingCreate.model_dump p) = inr (Listing_of p e).
Proof.
  intros Hprice He. unfold Listing.new.
  destruct (kwargs_lookup p) as (-> & -> & -> & -> & -> & -> & -> & -> & ->).
  rewrite !py_optional_str_opt_value. simpl. rewrite Hprice, He. reflexivity.
Qed.

Lemma Listing_new_negative (p : ListingCreate.t) :
  PrimFloat.leb 0 (ListingCreate.price p) = false →
  ∃ fields, Listing.new (ListingCreate.model_dump p) = inl fields ∧ "price" ∈ fields.
Proof.
  intros Hprice. apply errors_inl. unfold Listing.new.
  destruct (kwargs_lookup p) as (-> & -> & -> & -> & -> & -> & -> & -> & ->).
  rewrite !errors_ap, !elem_of_app, !elem_of_errors_check. simpl.
  rewrite Hprice. intuition.
Qed.

End ListingFacts.

(** ** More on the public-view mapper *)

Section MapperMore.
Context `{Externals}.

Lemma to_public_cases (doc : option document) :
  to_public doc = doc ∧ doc ≫= (.!! "_id") = None
  ∨ ∃ d v, doc = Some d ∧ d !! "_id" = Some v
           ∧ to_public doc = Some (<["id" := VStr (py_str v)]> (delete "_id" d)).
Proof.
  destruct doc as [d|]; [|by left].
  destruct (d !! "_id") as [v|] eqn:Hid.
  - right. exists d, v. by rewrite (to_public_id _ _ Hid).
  - left. by rewrite (to_public_no_id _ Hid).
Qed.

Lemma to_public_hides_id (doc : option document) :
  to_public doc ≫= (.!! "_id") = None.
Proof.
  destruct (to_public_cases doc) as [[-> Hid]|(d & v & -> & Hid & ->)]; [done|].
  simpl. rewrite lookup_insert_ne by done. apply lookup_delete_eq.
Qed.

(** X1. Whatever it is given, [to_public] returns no document with the key
    ["_id"]; and a document that has no such key, like [None], is returned
    as it is. *)
Theorem to_public_hides_internal_id (doc : option document) :
  to_public doc ≫= (.!! "_id") = None
  ∧ (doc ≫= (.!! "_id") = None → to_public doc = doc).
Proof.
  split; [apply to_public_hides_id|].
  destruct doc as [d|]; [|done]. apply to_public_no_id.
Qed.

(** X2. Mapping a document that is already in public shape changes nothing:
    [to_public] applied twice is [to_public] applied once. *)
Theorem to_public_idempotent (doc : option document) :
  to_public (to_public doc) = to_public doc.
Proof.
  destruct (to_public_cases doc) as [[E Hid]|(d & v & -> & Hid & ->)];
    [by rewrite !E|].
  apply to_public_no_id. rewrite lookup_insert_ne by done. apply lookup_delete_eq.
Qed.

(** X4. What [to_public] returns on the heap.  For [None] and for an empty
    dictionary it is the argument itself and nothing is allocated; for any
    other dictionary it is a dictionary at an address that was not in use,
    and the heap has grown by that address alone. *)
Theorem to_public_h_allocates (h : heap) (doc : pyref) :
  (truthy (deref h doc) = false → to_public_h h doc = (h, doc))
  ∧ (truthy (deref h doc) = true →
     ∃ l, (to_public_h h doc).2 = PDict l
          ∧ h !! l = None
          ∧ dom (to_public_h h doc).1 = {[ l ]} ∪ dom h).
Proof.
  unfold to_public_h. split; intros Ht; rewrite Ht; simpl; [done|].
  destruct doc as [|l0]; [done|].
  exists (fresh (dom h)).
  assert (h !! fresh (dom h) = None) as Hfresh.
  { apply not_elem_of_dom, is_fresh. }
  unfold dict_copy, dict_contains, dict_pop, dict_setitem.
  destruct (bool_decide _); simpl.
  - split; [done|]. split; [done|].
    by rewrite !dom_alter_L, dom_insert_L.
  - split; [done|]. split; [done|]. by rewrite dom_insert_L.
Qed.

End MapperMore.

(** ** The effects of the handlers on the store *)

Section Effects.
Context `{Externals}.

Lemma read_only_ret {A} (a : A) : read_only (mret a).
Proof. by intros w. Qed.

Lemma read_only_raise {A} (e : error) : read_only (raise e : M A).
Proof. by intros w. Qed.

Lemma read_only_bind {A B} (m : M A) (k : A → M B) :
  read_only m → (∀ a, read_only (k a)) → read_only (m ≫= k).
Proof.
  intros Hm Hk w. unfold mbind, M_bind, bind.
  specialize (Hm w). destruct (m w) as [[a|e] w']; simpl in *; [|done].
  by rewrite Hk.
Qed.

Lemma read_only_try_except {A} (m : M A) (handler : error → M A) :
  read_only m → (∀ e, read_only (handler e)) → read_only (try_except m handler).
Proof.
  intros Hm Hh w. unfold try_except.
  specialize (Hm w). destruct (m w) as [[a|e] w']; simpl in *; [done|].
  by rewrite Hh.
Qed.

Lemma read_only_db_getitem (name : string) : read_only (db_getitem name).
Proof. intros w. unfold db_getitem. by destruct (db w) eqn:E. Qed.

Lemma read_only_find_one (c : string) (f : filter_dict) : read_only (find_one c f).
Proof.
  intros w. unfold find_one. destruct (db w) eqn:E; [|done]. by destruct (filter_ok f).
Qed.

Lemma read_only_find (c : string) (f : filter_dict) : read_only (find c f).
Proof.
  intros w. unfold find. destruct (db w) eqn:E; [|done]. by destruct (filter_ok f).
Qed.

(** X5. ListListings and GetListing leave the store as it was, whatever
    they are given and whether they answer or fail. *)
Theorem lookups_read_only :
  (∀ title author isbn, read_only (list_listings title author isbn))
  ∧ (∀ listing_id, read_only (get_listing listing_id)).
Proof.
  split.
  - intros title author isbn. unfold list_listings, get_documents.
    apply read_only_bind; [apply read_only_find|].
    intros docs. apply read_only_ret.
  - intros listing_id. unfold get_listing. apply read_only_bind.
    + apply read_only_try_except; [|intros e; apply read_only_raise].
      apply read_only_bind; [apply read_only_db_getitem|]. intros c.
      apply read_only_bind; [|intros oid; apply read_only_find_one].
      destruct (ObjectId_new listing_id); [apply read_only_ret | apply read_only_raise].
    + intros doc. destruct (negb _); [apply read_only_raise | apply read_only_ret].
Qed.

Lemma calls_ret {A} (a : A) : calls_at_most 0 (mret a).
Proof. intros w. exists []. rewrite app_nil_r. split; [done | simpl; lia]. Qed.

Lemma calls_raise {A} (e : error) : calls_at_most 0 (raise e : M A).
Proof. intros w. exists []. rewrite app_nil_r. split; [done | simpl; lia]. Qed.

Lemma calls_bind {A B} (n k : nat) (m : M A) (f : A → M B) :
  calls_at_most n m → (∀ a, calls_at_most k (f a)) → calls_at_most (n + k) (m ≫= f).
Proof.
  intros Hm Hf w. unfold mbind, M_bind, bind.
  destruct (Hm w) as (ops & Ht & Hl). destruct (m w) as [[a|e] w']; simpl in *.
  - destruct (Hf a w') as (ops' & Ht' & Hl'). exists (ops ++ ops')%list.
    rewrite Ht', Ht, app_assoc, length_app. split; [done|lia].
  - exists ops. split; [done|lia].
Qed.

Lemma calls_try_except {A} (n k : nat) (m : M A) (handler : error → M A) :
  calls_at_most n m → (∀ e, calls_at_most k (handler e)) →
  calls_at_most (n + k) (try_except m handler).
Proof.
  intros Hm Hh w. unfold try_except.
  destruct (Hm w) as (ops & Ht & Hl). destruct (m w) as [[a|e] w']; simpl in *.
  - exists ops. split; [done|lia].
  - destruct (Hh e w') as (ops' & Ht' & Hl'). exists (ops ++ ops')%list.
    rewrite Ht', Ht, app_assoc, length_app. split; [done|lia].
Qed.

Lemma calls_db_getitem (name : string) : calls_at_most 0 (db_getitem name).
Proof.
  intros w. exists []. unfold db_getitem. rewrite app_nil_r.
  destruct (db w); (split; [done | simpl; lia]).
Qed.

Lemma calls_find_one (c : string) (f : filter_dict) : calls_at_most 1 (find_one c f).
Proof.
  intros w. unfold find_one. destruct (db w).
  - exists [FindOne c]. destruct (filter_ok f); (split; [done | simpl; lia]).
  - exists []. rewrite app_nil_r. split; [done | simpl; lia].
Qed.

Lemma calls_find (c : string) (f : filter_dict) : calls_at_most 1 (find c f).
Proof.
  intros w. unfold find. destruct (db w).
  - exists [Find c]. destruct (filter_ok f); (split; [done | simpl; lia]).
  - exists []. rewrite app_nil_r. split; [done | simpl; lia].
Qed.

(** X6. A call of ListListings or of GetListing issues at most one
    operation against the store, whatever the request and the state of the
    store; GetListing issues none when the text is no identifier. *)
Theorem lookups_store_calls :
  (∀ title author isbn, calls_at_most 1 (list_listings title author isbn))
  ∧ (∀ listing_id, calls_at_most 1 (get_listing listing_id))
  ∧ (∀ listing_id w,
       ObjectId_new listing_id = None → trace (get_listing listing_id w).2 = trace w).
Proof.
  split; [|split].
  - intros title author isbn. unfold list_listings, get_documents.
    apply (calls_bind 1 0); [apply calls_find|]. intros docs. apply calls_ret.
  - intros listing_id. unfold get_listing. apply (calls_bind 1 0).
    + apply (calls_try_except 1 0); [|intros e; apply calls_raise].
      apply (calls_bind 0 1); [apply calls_db_getitem|]. intros c.
      apply (calls_bind 0 1); [|intros oid; apply calls_find_one].
      destruct (ObjectId_new listing_id); [apply calls_ret | apply calls_raise].
    + intros doc. destruct (negb _); [apply calls_raise | apply calls_ret].
  - intros listing_id w Hid. by rewrite (get_listing_malformed _ _ Hid).
Qed.

(** X7. With a store configured, Register, Login and CreateListing fail at
    the truth test of the handle, whatever the request: the call ends in
    [NotImplementedError], nothing is asked of the store, and the store is
    as it was. *)
Theorem truth_test_fails (w : world) (st : store) :
  db w = Some st →
  (∀ oid p, register oid p w = (Raise NotImplementedError, w))
  ∧ (∀ p, login p w = (Raise NotImplementedError, w))
  ∧ (∀ oid p, create_listing oid p w = (Raise NotImplementedError, w)).
Proof.
  intros Hdb. split; [|split]; intros.
  - by apply (register_present _ _ _ st).
  - by apply (login_present _ _ st).
  - by apply (create_listing_present _ _ _ st).
Qed.

(** X8. With no database configured, Login answers [InvalidCredentials],
    CreateListing answers [SellerNotFound] and GetListing answers
    [MalformedId], whatever the request, and the state is as it was. *)
Theorem offline_answers (w : world) :
  db w = None →
  (∀ p, login p w = (Raise InvalidCredentials, w))
  ∧ (∀ oid p, create_listing oid p w = (Raise SellerNotFound, w))
  ∧ (∀ listing_id, get_listing listing_id w = (Raise MalformedId, w)).
Proof.
  intros Hdb. split; [|split]; intros.
  - by apply login_offline.
  - by apply create_listing_offline.
  - by apply get_listing_offline.
Qed.

End Effects.

(** ** The stored listing and the payload *)

Section ListingMore.
Context `{Externals}.

Lemma Listing_new_inr (p : ListingCreate.t) (l : Listing.t) :
  Listing.new (ListingCreate.model_dump p) = inr l →
  PrimFloat.leb 0 (ListingCreate.price p) = true
  ∧ ∃ e, validate_email (ListingCreate.seller_email p) = Some e ∧ l = Listing_of p e.
Proof.
  intros Hnew.
  destruct (PrimFloat.leb 0 (ListingCreate.price p)) eqn:Hprice.
  2: { destruct (Listing_new_negative p Hprice) as (fields & Hinl & _). congruence. }
  split; [done|].
  destruct (validate_email (ListingCreate.seller_email p)) as [e|] eqn:He.
  - exists e. split; [done|].
    rewrite (Listing_new_ok p e Hprice He) in Hnew. by injection Hnew as <-.
  - exfalso.
    assert ("seller_email" ∈ errors (Listing.new (ListingCreate.model_dump p))) as Hin.
    { unfold Listing.new.
      destruct (kwargs_lookup p) as (-> & -> & -> & -> & -> & -> & -> & -> & ->).
      rewrite !errors_ap, !elem_of_app, !elem_of_errors_check. simpl.
      rewrite He. intuition. }
    rewrite Hnew in Hin. simpl in Hin. by apply elem_of_nil in Hin.
Qed.

(** X9. The stored model accepts the payload of CreateListing exactly when
    the price is greater than or equal to zero, which not-a-number is not,
    and [seller_email] is an address; the listing then has the fields of the
    payload, the address as validated, and the status ["active"].  A price
    that fails the bound is reported under ["price"]. *)
Theorem Listing_new_payload (p : ListingCreate.t) :
  (∀ l, Listing.new (ListingCreate.model_dump p) = inr l
        ↔ PrimFloat.leb 0 (ListingCreate.price p) = true
          ∧ ∃ e, validate_email (ListingCreate.seller_email p) = Some e
                 ∧ l = Listing_of p e)
  ∧ (PrimFloat.leb 0 (ListingCreate.price p) = false →
     ∃ fields, Listing.new (ListingCreate.model_dump p) = inl fields
               ∧ "price" ∈ fields).
Proof.
  split; [|apply Listing_new_negative].
  intros l. split; [apply Listing_new_inr|].
  intros (Hprice & e & He & ->). by apply Listing_new_ok.
Qed.

End ListingMore.

(** ** GetListing and ListListings *)

Section LookupsMore.
Context `{Externals}.

(** X10. The identifier under which a listing is shown fetches that
    listing: for a stored listing whose identifier is twelve bytes and is
    the first of its kind in the collection, GetListing on the text that
    [to_public] puts under ["id"] returns the listing in public shape. *)
Theorem list_then_get (w : world) (st : store) (before after : list document)
    (d : document) (o : ObjectId) :
  db w = Some st →
  listings w = (before ++ d :: after)%list →
  d !! "_id" = Some (VOid o) →
  ObjectId_wf o →
  unused o before →
  to_public (Some d) ≫= (.!! "id") = Some (VStr (ObjectId_str o))
  ∧ get_listing (ObjectId_str o) w
    = (Ok (to_public (Some d)), log (FindOne "listing") w).
Proof.
  intros Hdb Hls Hid Hwf Hun. split; [by apply to_public_ObjectId|].
  pose proof (get_listing_online (ObjectId_str o) w st Hdb) as Hget.
  rewrite (ObjectId_new_str _ Hwf), Hls in Hget.
  rewrite find_app_first in Hget; [done| |by apply matches_id].
  intros d' Hd'. apply not_true_is_false. rewrite matches_id. by apply Hun.
Qed.

(** X11. With the store reachable, GetListing tells its three cases apart
    by the text and the store alone: it fails with [MalformedId] exactly
    when the text is no identifier, and then asks nothing of the store; for
    an identifier that no stored listing has it fails with [NotFound]; and
    for one that a stored listing has it returns such a listing in public
    shape. *)
Theorem get_listing_reachable (listing_id : string) (w : world) (st : store) :
  db w = Some st →
  ((get_listing listing_id w).1 = Raise MalformedId ↔ ObjectId_new listing_id = None)
  ∧ (ObjectId_new listing_id = None → get_listing listing_id w = (Raise MalformedId, w))
  ∧ (∀ oid,
       ObjectId_new listing_id = Some oid →
       (∀ d, d ∈ listings w → d !! "_id" ≠ Some (VOid oid)) →
       get_listing listing_id w = (Raise NotFound, log (FindOne "listing") w))
  ∧ (∀ oid,
       ObjectId_new listing_id = Some oid →
       (∃ d, d ∈ listings w ∧ d !! "_id" = Some (VOid oid)) →
       ∃ d, d ∈ listings w ∧ d !! "_id" = Some (VOid oid)
            ∧ get_listing listing_id w
              = (Ok (to_public (Some d)), log (FindOne "listing") w)).
Proof.
  intros Hdb. pose proof (get_listing_online listing_id w st Hdb) as Hget.
  destruct (ObjectId_new listing_id) as [oid|] eqn:Hparse.
  - destruct (List.find _ (listings w)) as [d|] eqn:Hfind.
    + destruct (find_Some _ _ _ Hfind) as [Hd Hid%matches_id].
      rewrite Hget. split; [by split|]. split; [done|]. split.
      * intros ? [= <-] Hno. by destruct (Hno d Hd).
      * intros ? [= <-] _. by exists d.
    + rewrite find_None in Hfind.
      rewrite Hget. split; [by split|]. split; [done|]. split; [done|].
      intros ? [= <-] (d & Hd & Hid). apply matches_id in Hid.
      specialize (Hfind d Hd). congruence.
  - rewrite Hget. by repeat split.
Qed.

(** X12. What GetListing and ListListings return never carries the key
    ["_id"]: GetListing returns a document with the key ["id"] and without
    ["_id"], and every document that ListListings returns is without
    ["_id"]. *)
Theorem listings_leave_in_public_shape (w : world) :
  (∀ listing_id r,
     (get_listing listing_id w).1 = Ok r →
     ∃ d, r = Some d ∧ d !! "_id" = None ∧ is_Some (d !! "id"))
  ∧ (∀ title author isbn rs r,
       (list_listings title author isbn w).1 = Ok rs →
       r ∈ rs →
       ∃ d, r = Some d ∧ d !! "_id" = None).
Proof.
  split.
  - intros listing_id r. destruct (db w) as [st|] eqn:Hdb.
    2: { by rewrite (get_listing_offline _ _ Hdb). }
    pose proof (get_listing_online listing_id w st Hdb) as Hget.
    destruct (ObjectId_new listing_id) as [oid|]; [|by rewrite Hget].
    destruct (List.find _ (listings w)) as [d|] eqn:Hfind; [|by rewrite Hget].
    destruct (find_Some _ _ _ Hfind) as [_ Hid%matches_id].
    rewrite Hget, (to_public_id _ _ Hid). cbn [fst]. intros [= <-].
    eexists. split; [reflexivity|]. split.
    + rewrite lookup_insert_ne by done. apply lookup_delete_eq.
    + rewrite lookup_insert_eq. by eexists.
  - intros title author isbn rs r. destruct (db w) as [st|] eqn:Hdb.
    2: { by rewrite (list_listings_offline _ _ _ _ Hdb). }
    rewrite (list_listings_run _ _ _ _ _ Hdb).
    destruct (_ && _); [|done]. cbn [fst]. intros [= <-].
    intros (d & -> & _)%list_elem_of_fmap.
    pose proof (to_public_hides_id (Some d)) as Hhide.
    destruct (to_public_cases (Some d)) as [[E _]|(d0 & v & _ & _ & E)];
      rewrite E in Hhide |- *; by eexists.
Qed.

End LookupsMore.

(** ** The routes *)

Section RoutesMore.
Context `{Externals}.

Lemma parse_body_inl {A} (r : list string + A) (fields : list string) (w : world) :
  r = inl fields → parse_body r w = (Raise (RequestValidationError fields), w).
Proof. by intros ->. Qed.

Ltac email_errors :=
  apply errors_inl; rewrite !errors_ap, !elem_of_app, !elem_of_errors_check;
  intuition.

(** X13. A body whose email is missing, is not text or is no address is
    refused by the route before the handler runs: Register and Login answer
    with [RequestValidationError] reporting ["email"], CreateListing with one
    reporting ["seller_email"], and the state is as it was, no operation
    having been issued against the store. *)
Theorem routes_check_email (b : body) (w : world) :
  (Field.email (b !! "email") = None →
   (∀ oid, ∃ fields,
      post_register oid b w = (Raise (RequestValidationError fields), w)
      ∧ "email" ∈ fields)
   ∧ ∃ fields,
       post_login b w = (Raise (RequestValidationError fields), w)
       ∧ "email" ∈ fields)
  ∧ (Field.email (b !! "seller_email") = None →
     ∀ oid, ∃ fields,
       post_listings oid b w = (Raise (RequestValidationError fields), w)
       ∧ "seller_email" ∈ fields).
Proof.
  split; [intros He; split; [intros oid|] | intros He oid].
  - assert (∃ fields, RegisterPayload.validate b = inl fields ∧ "email" ∈ fields)
      as (fields & Hv & Hin) by (unfold RegisterPayload.validate; email_errors).
    exists fields. split; [|done]. unfold post_register.
    by rewrite (bind_Raise _ _ _ _ _ (parse_body_inl _ _ _ Hv)).
  - assert (∃ fields, LoginPayload.validate b = inl fields ∧ "email" ∈ fields)
      as (fields & Hv & Hin) by (unfold LoginPayload.validate; email_errors).
    exists fields. split; [|done]. unfold post_login.
    by rewrite (bind_Raise _ _ _ _ _ (parse_body_inl _ _ _ Hv)).
  - assert (∃ fields, ListingCreate.validate b = inl fields ∧ "seller_email" ∈ fields)
      as (fields & Hv & Hin) by (unfold ListingCreate.validate; email_errors).
    exists fields. split; [|done]. unfold post_listings.
    by rewrite (bind_Raise _ _ _ _ _ (parse_body_inl _ _ _ Hv)).
Qed.

End RoutesMore.

(** ** The health check *)

Section HealthCheck.

Lemma py_len_take (n : nat) (s : string) : (py_len (py_take n s) ≤ n)%nat.
Proof.
  revert n. induction s as [|c s IH]; intros n; simpl; [lia|].
  destruct (is_continuation c) eqn:Hc; simpl.
  - rewrite Hc. apply IH.
  - destruct n as [|n]; simpl; [lia|]. rewrite Hc. specialize (IH n). lia.
Qed.

Lemma py_take_prefix (n : nat) (s : string) : ∃ rest, s = py_take n s ++ rest.
Proof.
  revert n. induction s as [|c s IH]; intros n; simpl; [by exists ""|].
  destruct (is_continuation c).
  - destruct (IH n) as [rest Hrest]. exists rest. rewrite Hrest at 1. reflexivity.
  - destruct n as [|n]; [by eexists|].
    destruct (IH n) as [rest Hrest]. exists rest. rewrite Hrest at 1. reflexivity.
Qed.


(** X15. The fields [database_url] and [database_name] of the health check
    tell of the environment alone: each is ["✅ Set"] when its variable is
    set to a text that is not empty and ["❌ Not Set"] otherwise, whatever
    the handle is and does; what the handle had set them to is
    overwritten. *)
Theorem test_database_environment (getenv : string → option string) (db : option handle) :
  test_database getenv db !! "database_url"
  = Some (JStr (if env_truthy (getenv "DATABASE_URL") then "✅ Set" else "❌ Not Set"))
  ∧ test_database getenv db !! "database_name"
    = Some (JStr (if env_truthy (getenv "DATABASE_NAME") then "✅ Set" else "❌ Not Set")).
Proof.
  unfold test_database. split.
  - rewrite lookup_insert_ne by done. apply lookup_insert_eq.
  - apply lookup_insert_eq.
Qed.

Lemma test_database_connection_status (getenv : string → option string)
    (db : option handle) :
  test_database getenv db !! "connection_status"
  = Some (JStr match db with
               | Some h =>
                   match getattr_name h with
                   | Returns _ => "Connected"
                   | Raises _ => "Not Connected"
                   end
               | None => "Not Connected"
               end).
Proof.
  unfold test_database.
  destruct db as [[[name|message] [cs|message']]|]; reflexivity.
Qed.

Lemma test_database_database (getenv : string → option string) (db : option handle) :
  test_database getenv db !! "database"
  = Some (JStr match db with
               | None => "❌ Not Available"
               | Some h =>
                   match getattr_name h with
                   | Raises message => "❌ Error: " ++ py_take 80 message
                   | Returns _ =>
                       match list_collection_names h with
                       | Returns _ => "✅ Connected & Working"
                       | Raises message =>
                           "⚠️ Connected but Error: " ++ py_take 80 message
                       end
                   end
               end).
Proof.
  unfold test_database.
  destruct db as [[[name|message] [cs|message']]|]; reflexivity.
Qed.

(** X16. The health check reports the connection as it found it:
    [connection_status] is ["Connected"] exactly when the handle is there
    and its name could be read, and [database] is ["✅ Connected & Working"]
    exactly when, further, the store listed its collections; with no handle
    [database] is ["❌ Not Available"]. *)
Theorem test_database_status (getenv : string → option string) (db : option handle) :
  (test_database getenv db !! "connection_status" = Some (JStr "Connected")
   ↔ ∃ h name, db = Some h ∧ getattr_name h = Returns name)
  ∧ (test_database getenv db !! "database" = Some (JStr "✅ Connected & Working")
     ↔ ∃ h name cs, db = Some h ∧ getattr_name h = Returns name
                    ∧ list_collection_names h = Returns cs)
  ∧ (db = None →
     test_database getenv db !! "database" = Some (JStr "❌ Not Available")
     ∧ test_database getenv db !! "connection_status" = Some (JStr "Not Connected")).
Proof.
  rewrite test_database_connection_status, test_database_database.
  destruct db as [[[name|message] [cs|message']]|]; simpl.
  - split; [|split]; [ | | done].
    + split; [intros _; by eexists _, _ | done].
    + split; [intros _; by eexists _, _, _ | done].
  - split; [|split]; [ | | done].
    + split; [intros _; by eexists _, _ | done].
    + split; [intros [=] | by intros (? & ? & ? & [= <-] & _ & [=])].
  - split; [|split]; [ | | done].
    + split; [intros [=] | by intros (? & ? & [= <-] & [=])].
    + split; [intros [=] | by intros (? & ? & ? & [= <-] & [=] & _)].
  - split; [|split]; [ | | done].
    + split; [intros [=] | by intros (? & ? & [= <-] & [=])].
    + split; [intros [=] | by intros (? & ? & ? & [= <-] & [=] & _)].
  - split; [|split]; [ | | done].
    + split; [intros [=] | by intros (? & ? & [=] & _)].
    + split; [intros [=] | by intros (? & ? & ? & [=] & _)].
Qed.

(** X17. When the store fails to list its collections, [database] is the
    text ["⚠️ Connected but Error: "] followed by the beginning of the
    message of the failure, eighty characters of it at most. *)
Theorem test_database_error_text (getenv : string → option string) (h : handle)
    (name : option json) (message : string) :
  getattr_name h = Returns name →
  list_collection_names h = Raises message →
  ∃ shown rest,
    test_database getenv (Some h) !! "database"
    = Some (JStr ("⚠️ Connected but Error: " ++ shown))
    ∧ message = shown ++ rest
    ∧ (py_len shown ≤ 80)%nat.
Proof.
  intros Hname Hlist. destruct (py_take_prefix 80 message) as [rest Hrest].
  exists (py_take 80 message), rest.
  split; [|split; [done | apply py_len_take]].
  rewrite test_database_database. simpl. by rewrite Hname, Hlist.
Qed.

End HealthCheck.

(** * The model at concrete inputs *)

#[local] Existing Instance Demo.lib.

(** C1, at a request the code accepts.  The body with the price [-1] passes
    the validation of the route, and the payload it yields is one that the
    stored model refuses on [price]: the bound is checked only where the
    handler builds that model, after it has looked the seller up.  The
    request is not answered with a validation error: with a store
    configured the handler fails at the truth test of the handle, and with
    none it answers [SellerNotFound]. *)
Theorem post_listings_negative_price :
  errors (ListingCreate.validate Demo.negative_price) = []
  ∧ (∃ p, ListingCreate.validate Demo.negative_price = inr p
          ∧ ListingCreate.price p = (-1)%float
          ∧ Listing.new (ListingCreate.model_dump p) = inl ["price"])
  ∧ post_listings Demo.oid4 Demo.negative_price Demo.online
    = (Raise NotImplementedError, Demo.online)
  ∧ post_listings Demo.oid4 Demo.negative_price Demo.offline
    = (Raise SellerNotFound, Demo.offline).
Proof.
  split; [vm_compute; reflexivity|]. split.
  - eexists. split; [vm_compute; reflexivity|]. split; vm_compute; reflexivity.
  - split; vm_compute; reflexivity.
Qed.

(** C2, with no store configured.  The text is a well-formed identifier, and
    GetListing fails with [MalformedId] all the same: the handler turns every
    failure of the lookup into that error, the missing store included. *)
Theorem get_listing_unreachable_store :
  ObjectId_new "507f1f77bcf86cd799439011" = Some Demo.oid1
  ∧ get_listing "507f1f77bcf86cd799439011" Demo.offline
    = (Raise MalformedId, Demo.offline)
  ∧ (get_listing "507f1f77bcf86cd799439014" Demo.online).1 = Raise NotFound.
Proof. repeat split; vm_compute; reflexivity. Qed.

(** C3, with a store configured.  Login with an email that no stored user
    has, and Login with the email of a stored user and another hash, both
    end in [NotImplementedError] from the truth test of the handle: neither
    reaches the lookup, and neither is answered with [InvalidCredentials]. *)
Theorem login_truth_test :
  (∀ u, u ∈ users Demo.online → u !! "email" ≠ Some (VStr "bob@example.com"))
  ∧ Demo.alice ∈ users Demo.online
  ∧ login Demo.unknown_login Demo.online = (Raise NotImplementedError, Demo.online)
  ∧ login Demo.wrong_hash_login Demo.online = (Raise NotImplementedError, Demo.online).
Proof.
  split.
  - intros u Hu. change (users Demo.online) with [Demo.alice] in Hu.
    apply list_elem_of_singleton in Hu as ->. vm_compute. discriminate.
  - split; [apply list_elem_of_here|]. split; vm_compute; reflexivity.
Qed.

(** C6, with a store configured.  Register with the email of a stored user
    and Register with a new email both end in [NotImplementedError] from
    the truth test of the handle: the first is not answered with
    [DuplicateEmail], and the second stores no user. *)
Theorem register_truth_test :
  register Demo.oid4 Demo.alice_again Demo.online
  = (Raise NotImplementedError, Demo.online)
  ∧ register Demo.oid4 Demo.bob Demo.online
    = (Raise NotImplementedError, Demo.online).
Proof. split; vm_compute; reflexivity. Qed.

(** C7, with a store configured.  CreateListing for a seller who is not
    registered and CreateListing for one who is both end in
    [NotImplementedError] from the truth test of the handle: the first is
    not answered with [SellerNotFound], and the second stores no listing. *)
Theorem create_listing_truth_test :
  create_listing Demo.oid4 Demo.orphan Demo.online
  = (Raise NotImplementedError, Demo.online)
  ∧ create_listing Demo.oid4 Demo.persuasion Demo.online
    = (Raise NotImplementedError, Demo.online).
Proof. split; vm_compute; reflexivity. Qed.

(** C8 fails as stated: bodies whose [name], [title] and [author] are empty
    pass the validation of the routes, and the stored models accept the
    payloads they yield. *)
Lemma empty_text_accepted :
  RegisterPayload.validate Demo.nameless
  = inr {| RegisterPayload.name := ""; RegisterPayload.email := "bob@example.com";
           RegisterPayload.password_hash := "2c26b46b" |}
  ∧ User.new "" "bob@example.com" "2c26b46b"
    = inr {| User.name := ""; User.email := "bob@example.com";
             User.password_hash := "2c26b46b" |}
  ∧ ListingCreate.validate Demo.untitled
    = inr {| ListingCreate.title := ""; ListingCreate.author := "";
             ListingCreate.isbn := None; ListingCreate.price := 3.5;
             ListingCreate.condition := "Good"; ListingCreate.cover := None;
             ListingCreate.description := None;
             ListingCreate.seller_email := "alice@example.com" |}
  ∧ (∃ p l, ListingCreate.validate Demo.untitled = inr p
            ∧ Listing.new (ListingCreate.model_dump p) = inr l
            ∧ Listing.title l = "" ∧ Listing.author l = "").
Proof.
  split; [vm_compute; reflexivity|]. split; [vm_compute; reflexivity|].
  split; [vm_compute; reflexivity|].
  eexists _, _. split; [vm_compute; reflexivity|].
  split; [vm_compute; reflexivity|]. split; reflexivity.
Qed.

Lemma text_fields_any_text_witness :
  ("name" ∉ errors (RegisterPayload.validate Demo.nameless))
  ∧ ("title" ∉ errors (ListingCreate.validate Demo.untitled))
  ∧ ("author" ∉ errors (ListingCreate.validate Demo.untitled)).
Proof.
  destruct text_fields_any_text as (Hname & Htitle & Hauthor).
  split; [exact (proj1 (Hname Demo.nameless))|].
  split; [exact (proj1 (Htitle Demo.untitled)) | exact (proj1 (Hauthor Demo.untitled))].
Defined.

(** The stored document [Demo.alice] is unchanged by the call. *)
Lemma to_public_h_frame_witness :
  ({[ 0 := Demo.alice ]} : heap) !! 0 = Some Demo.alice
  ∧ (to_public_h {[ 0 := Demo.alice ]} (PDict 0)).1 !! 0 = Some Demo.alice.
Proof.
  split; [reflexivity|].
  destruct (to_public_h_frame {[ 0 := Demo.alice ]} 0 Demo.alice) as [Hw _];
    [reflexivity | exact Hw].
Defined.

(** [Demo.alice] in public shape *)
Lemma to_public_spec_witness :
  Demo.alice !! "_id" = Some (VOid Demo.oid1)
  ∧ ∃ d', to_public (Some Demo.alice) = Some d'
          ∧ d' !! "_id" = None
          ∧ d' !! "id" = Some (VStr (py_str (VOid Demo.oid1)))
          ∧ ∀ k, k ≠ "_id" → k ≠ "id" → d' !! k = Demo.alice !! k.
Proof.
  split; [reflexivity|].
  apply (to_public_spec (Some Demo.alice) (VOid Demo.oid1)).
  reflexivity.
Defined.


(** ** More runs of the model *)

Lemma to_public_hides_internal_id_witness :
  to_public (Some Demo.alice) ≫= (.!! "_id") = None
  ∧ to_public (Some ({[ "id" := VStr "7" ]} : document)) = Some {[ "id" := VStr "7" ]}.
Proof.
  split.
  - apply (proj1 (to_public_hides_internal_id (Some Demo.alice))).
  - apply (proj2 (to_public_hides_internal_id (Some {[ "id" := VStr "7" ]}))).
    reflexivity.
Defined.

Lemma to_public_h_allocates_witness :
  to_public_h {[ 0 := Demo.alice ]} PNone = ({[ 0 := Demo.alice ]}, PNone)
  ∧ ∃ l, (to_public_h {[ 0 := Demo.alice ]} (PDict 0)).2 = PDict l
         ∧ ({[ 0 := Demo.alice ]} : heap) !! l = None
         ∧ dom (to_public_h {[ 0 := Demo.alice ]} (PDict 0)).1
           = {[ l ]} ∪ dom ({[ 0 := Demo.alice ]} : heap).
Proof.
  split.
  - apply (proj1 (to_public_h_allocates {[ 0 := Demo.alice ]} PNone)). reflexivity.
  - apply (proj2 (to_public_h_allocates {[ 0 := Demo.alice ]} (PDict 0))). reflexivity.
Defined.

Lemma lookups_store_calls_witness :
  ObjectId_new "not-an-id" = None
  ∧ trace (get_listing "not-an-id" Demo.online).2 = trace Demo.online.
Proof.
  split; [reflexivity|].
  destruct lookups_store_calls as (_ & _ & Hget).
  apply (Hget "not-an-id" Demo.online). reflexivity.
Defined.

Lemma truth_test_fails_witness :
  db Demo.online = Some Demo.shop
  ∧ register Demo.oid4 Demo.bob Demo.online = (Raise NotImplementedError, Demo.online)
  ∧ login Demo.wrong_hash_login Demo.online = (Raise NotImplementedError, Demo.online)
  ∧ create_listing Demo.oid4 Demo.persuasion Demo.online
    = (Raise NotImplementedError, Demo.online).
Proof.
  split; [reflexivity|].
  destruct (truth_test_fails Demo.online Demo.shop eq_refl) as (Hr & Hl & Hc).
  split; [apply Hr|]. split; [apply Hl | apply Hc].
Defined.

Lemma offline_answers_witness :
  db Demo.offline = None
  ∧ login Demo.wrong_hash_login Demo.offline = (Raise InvalidCredentials, Demo.offline)
  ∧ create_listing Demo.oid4 Demo.persuasion Demo.offline
    = (Raise SellerNotFound, Demo.offline)
  ∧ get_listing "507f1f77bcf86cd799439012" Demo.offline
    = (Raise MalformedId, Demo.offline).
Proof.
  split; [reflexivity|].
  destruct (offline_answers Demo.offline eq_refl) as (Hl & Hc & Hg).
  split; [apply Hl|]. split; [apply Hc | apply Hg].
Defined.

Lemma Listing_new_payload_witness :
  PrimFloat.leb 0 (ListingCreate.price Demo.persuasion) = true
  ∧ Listing.new (ListingCreate.model_dump Demo.persuasion)
    = inr (Listing_of Demo.persuasion "alice@example.com").
Proof.
  split; [reflexivity|].
  apply (proj1 (Listing_new_payload Demo.persuasion)).
  split; [reflexivity|]. exists "alice@example.com". split; reflexivity.
Defined.

Lemma list_then_get_witness :
  listings Demo.online = ([Demo.dune] ++ Demo.emma :: [])%list
  ∧ to_public (Some Demo.emma) ≫= (.!! "id") = Some (VStr (ObjectId_str Demo.oid3))
  ∧ get_listing (ObjectId_str Demo.oid3) Demo.online
    = (Ok (to_public (Some Demo.emma)), log (FindOne "listing") Demo.online).
Proof.
  split; [reflexivity|].
  apply (list_then_get Demo.online Demo.shop [Demo.dune] [] Demo.emma Demo.oid3);
    try reflexivity.
  intros d Hd. apply list_elem_of_singleton in Hd as ->. vm_compute. discriminate.
Defined.

Lemma get_listing_reachable_witness :
  db Demo.online = Some Demo.shop
  ∧ ObjectId_new "507f1f77bcf86cd799439013" = Some Demo.oid3
  ∧ ∃ d, d ∈ listings Demo.online ∧ d !! "_id" = Some (VOid Demo.oid3)
         ∧ get_listing "507f1f77bcf86cd799439013" Demo.online
           = (Ok (to_public (Some d)), log (FindOne "listing") Demo.online).
Proof.
  split; [reflexivity|]. split; [reflexivity|].
  destruct (get_listing_reachable "507f1f77bcf86cd799439013" Demo.online Demo.shop
              eq_refl) as (_ & _ & _ & Hfound).
  apply (Hfound Demo.oid3); [reflexivity|].
  exists Demo.emma. split; [|reflexivity].
  change (listings Demo.online) with [Demo.dune; Demo.emma].
  apply list_elem_of_further, list_elem_of_here.
Defined.

Lemma listings_leave_in_public_shape_witness :
  (get_listing "507f1f77bcf86cd799439015" Probe.kiosk).1
  = Ok (to_public (Some Probe.leaflet))
  ∧ ∃ d, to_public (Some Probe.leaflet) = Some d
         ∧ d !! "_id" = None ∧ is_Some (d !! "id").
Proof.
  split; [vm_compute; reflexivity|].
  apply (proj1 (listings_leave_in_public_shape Probe.kiosk)
           "507f1f77bcf86cd799439015").
  vm_compute. reflexivity.
Defined.

Lemma routes_check_email_witness :
  Field.email (({[ "email" := JStr "nobody" ]} : body) !! "email") = None
  ∧ ∃ fields,
      post_login {[ "email" := JStr "nobody" ]} Demo.online
      = (Raise (RequestValidationError fields), Demo.online)
      ∧ "email" ∈ fields.
Proof.
  split; [reflexivity|].
  apply (proj1 (routes_check_email {[ "email" := JStr "nobody" ]} Demo.online)).
  reflexivity.
Defined.


Lemma test_database_status_witness :
  test_database Probe.getenv_url (Some Probe.working) !! "connection_status"
  = Some (JStr "Connected")
  ∧ test_database Probe.getenv_url (Some Probe.working) !! "database"
    = Some (JStr "✅ Connected & Working")
  ∧ test_database Probe.getenv_url None !! "database" = Some (JStr "❌ Not Available").
Proof.
  split; [|split].
  - apply (proj1 (test_database_status Probe.getenv_url (Some Probe.working))).
    by eexists _, _.
  - apply (proj1 (proj2 (test_database_status Probe.getenv_url (Some Probe.working)))).
    by eexists _, _, _.
  - apply (proj2 (proj2 (test_database_status Probe.getenv_url None))). reflexivity.
Defined.

Lemma test_database_error_text_witness :
  ∃ shown rest,
    test_database Probe.getenv_none (Some Probe.failing) !! "database"
    = Some (JStr ("⚠️ Connected but Error: " ++ shown))
    ∧ "connection refused" = shown ++ rest
    ∧ (py_len shown ≤ 80)%nat.
Proof.
  apply (test_database_error_text Probe.getenv_none Probe.failing
           (Some (JStr "books")) "connection refused"); reflexivity.
Defined.
